(** * Verification of the ethereum-sdk fee resolver, web3 function call
      and order fulfilment rules

    The development embeds, as executable Rocq definitions,

    - [getBaseFee] of [packages/sdk/src/common/get-base-fee.ts],
    - [Web3FunctionCall.send] of [packages/web3-ethereum/src/index.ts],
    - the test helper [getOpenseaWethTakeData] of
      [packages/sdk/src/order/fill-order/seaport.test.ts],

    together with the order fulfilment dispatcher and the basis-point
    utilities, whose sources are not part of the tree at hand and are
    modelled from the specification. *)

From Stdlib Require Import ZArith List String Ascii Bool Lia.
From Stdlib Require Import QArith Qround.
From Stdlib Require Import Floats.PrimFloat.
From Stdlib Require Import DecimalString.
Import ListNotations.

Set Warnings "-register-all".

Local Open Scope string_scope.
Local Open Scope Z_scope.

(** ** A monad for code that logs and throws

    JavaScript code here has two effects: it calls out to collaborators
    (console, HTTP client, chain node), which we record in order in a trace,
    and it throws.  The trace survives a throw, as console output does. *)

Module Eff.

Inductive outcome (E A : Type) : Type :=
| Returned (a : A)
| Thrown (e : E).
Arguments Returned {E A} a.
Arguments Thrown {E A} e.

Definition M (Ev E A : Type) : Type := list Ev -> list Ev * outcome E A.

Definition ret {Ev E A} (a : A) : M Ev E A := fun tr => (tr, Returned a).

Definition throw {Ev E A} (e : E) : M Ev E A := fun tr => (tr, Thrown e).

Definition emit {Ev E} (ev : Ev) : M Ev E unit :=
  fun tr => ((tr ++ [ev])%list, Returned tt).

Definition bind {Ev E A B} (m : M Ev E A) (k : A -> M Ev E B) : M Ev E B :=
  fun tr =>
    match m tr with
    | (tr', Returned a) => k a tr'
    | (tr', Thrown e) => (tr', Thrown e)
    end.

(** [try { m } catch (e) { h e }] *)
Definition try_catch {Ev E A} (m : M Ev E A) (h : E -> M Ev E A) : M Ev E A :=
  fun tr =>
    match m tr with
    | (tr', Returned a) => (tr', Returned a)
    | (tr', Thrown e) => h e tr'
    end.

(** Lifts the outcome of a collaborator into the monad. *)
Definition lift {Ev E A} (o : outcome E A) : M Ev E A := fun tr => (tr, o).

Definition run {Ev E A} (m : M Ev E A) : list Ev * outcome E A := m [].

End Eff.

Notation "x <- m ;; k" := (Eff.bind m (fun x => k))
  (at level 61, m at next level, right associativity).
Notation "m ;;; k" := (Eff.bind m (fun _ => k))
  (at level 61, right associativity).

(** ** JavaScript values as the fee table holds them *)

Module Js.

(** [s.includes(sub)] *)
Fixpoint includes (s sub : string) : bool :=
  if String.prefix sub s then true
  else match s with
       | EmptyString => false
       | String _ rest => includes rest sub
       end.

(** What [JSON.parse] can produce, plus [undefined] for absent properties.
    Numbers are IEEE binary64, as in the language.  An object is the list of
    its own properties. *)
Inductive value : Type :=
| Undefined
| Null
| Bool (b : bool)
| Number (n : float)
| String (s : string)
| Array (items : list value)
| Object (fields : list (string * value)).

(** An exception value: the constructor name and the message. *)
Record error : Type := mkError { errName : string; errMessage : string }.

(** [new Error(message)] *)
Definition Error (message : string) : error := mkError "Error" message.
Definition TypeError (message : string) : error := mkError "TypeError" message.

(** ToBoolean.  Falsy: undefined, null, false, +0, -0, NaN, the empty
    string. *)
Definition truthy (v : value) : bool :=
  match v with
  | Undefined | Null => false
  | Bool b => b
  | Number n => negb (PrimFloat.eqb n PrimFloat.zero || PrimFloat.is_nan n)
  | String s => negb (String.eqb s "")
  | Array _ | Object _ => true
  end.

Fixpoint own_property (fields : list (string * value)) (key : string)
  : option value :=
  match fields with
  | [] => None
  | (k, v) :: rest => if String.eqb k key then Some v else own_property rest key
  end.

(** [o[key]] for a key that names a fee network or an order type.  Those keys
    are neither array indices nor names inherited from a prototype, so only an
    object's own properties can answer.  Reading a property of [undefined] or
    [null] throws. *)
Definition get (o : value) (key : string) : Eff.outcome error value :=
  match o with
  | Undefined | Null =>
      Eff.Thrown (TypeError ("Cannot read properties of nullish value (reading '" ++ key ++ "')"))
  | Object fields =>
      Eff.Returned (match own_property fields key with
                    | Some v => v
                    | None => Undefined
                    end)
  | _ => Eff.Returned Undefined
  end.

(** [key in o].  The right operand must be an object, else a TypeError. *)
Definition has (key : string) (o : value) : Eff.outcome error bool :=
  match o with
  | Object fields =>
      Eff.Returned (match own_property fields key with
                    | Some _ => true
                    | None => false
                    end)
  | Array _ => Eff.Returned false
  | _ => Eff.Thrown (TypeError ("Cannot use 'in' operator to search for '" ++ key ++ "'"))
  end.

(** [a || b] *)
Definition or (a b : value) : value := if truthy a then a else b.

Section ToNumber.

(** ToNumber on strings, arrays and objects goes through the language's
    numeric-literal parser and ToPrimitive; it is left to the runtime. *)
Variable to_number_runtime : value -> float.

(** [Number(v)] *)
Definition to_number (v : value) : float :=
  match v with
  | Undefined => PrimFloat.nan
  | Null => PrimFloat.zero
  | Bool true => PrimFloat.one
  | Bool false => PrimFloat.zero
  | Number n => n
  | String _ | Array _ | Object _ => to_number_runtime v
  end.

End ToNumber.

End Js.

(** ** The fee resolver: [packages/sdk/src/common/get-base-fee.ts] *)

Module Fee.

(** [NetworkErrorCode] of [./logger/logger]; the resolver uses one member. *)
Inductive NetworkErrorCode : Type := ETHEREUM_EXTERNAL_ERR.

(** The part of [EthereumConfig] the resolver reads. *)
Record EthereumConfig : Type := { feeConfigUrl : string }.

(** Calls to collaborators, in the order they happen. *)
Inductive event : Type :=
| AxiosGet (url : string)
| ConsoleError (e : Js.error)
| HandleAxiosErrorResponse (e : Js.error) (code : NetworkErrorCode).

Definition M := Eff.M event Js.error.

Section GetBaseFee.

(** The world outside: what [axios.get(url)] settles with ([response.data]
    when it resolves, the rejection when it does not), and whether the
    logger's [handleAxiosErrorResponse] returns or throws. *)
Variable axios_get : string -> Eff.outcome Js.error Js.value.
Variable handleAxiosErrorResponse :
  Js.error -> NetworkErrorCode -> Eff.outcome Js.error unit.

(** [CURRENT_ORDER_TYPE_VERSION] of [./order], the default fee type. *)
Variable CURRENT_ORDER_TYPE_VERSION : string.

Variable to_number_runtime : Js.value -> float.

(** The [try]/[catch] block of [getBaseFee]; its value is what the block
    leaves in [envFeeConfig]. *)
Definition fetchEnvFeeConfig (config : EthereumConfig) (env : string)
  : M Js.value :=
  Eff.try_catch
    (Eff.emit (AxiosGet (feeConfigUrl config)) ;;;
     data <- Eff.lift (axios_get (feeConfigUrl config)) ;;
     envFeeConfig <- Eff.lift (Js.get data env) ;;
     if negb (Js.truthy envFeeConfig)
     then Eff.throw (Js.Error ("Fee config was not found for " ++ env))
     else Eff.ret envFeeConfig)
    (fun e =>
       Eff.emit (ConsoleError e) ;;;
       Eff.emit (HandleAxiosErrorResponse e ETHEREUM_EXTERNAL_ERR) ;;;
       Eff.lift (handleAxiosErrorResponse e ETHEREUM_EXTERNAL_ERR) ;;;
       Eff.throw e).

Definition getBaseFee (config : EthereumConfig) (env : string)
    (type : option string) : M float :=
  let type := match type with
              | Some t => t
              | None => CURRENT_ORDER_TYPE_VERSION
              end in
  envFeeConfig <- fetchEnvFeeConfig config env ;;
  present <- Eff.lift (Js.has type envFeeConfig) ;;
  if negb present
  then Eff.throw (Js.Error ("Unsupported fee type " ++ type))
  else
    configured <- Eff.lift (Js.get envFeeConfig type) ;;
    Eff.ret (Js.to_number to_number_runtime
               (Js.or configured (Js.Number PrimFloat.zero))).

End GetBaseFee.

End Fee.

(** ** The web3 provider: [packages/web3-ethereum/src/index.ts] *)

Module Web3.

(** [String.prototype.slice(n)] for [0 <= n]. *)
Fixpoint slice (n : nat) (s : string) : string :=
  match n, s with
  | O, _ => s
  | S _, EmptyString => EmptyString
  | S m, String _ rest => slice m rest
  end.

(** [s.endsWith(suffix)] *)
Definition endsWith (s suffix : string) : bool :=
  String.eqb (slice (String.length s - String.length suffix) s) suffix.

(** [a || b] on optional numbers: an absent number, 0 and NaN are falsy. *)
Definition or_number (a b : option float) : option float :=
  match a with
  | Some n => if Js.truthy (Js.Number n) then a else b
  | None => b
  end.

(** A present string is truthy unless it is empty. *)
Definition truthy_string (s : option string) : bool :=
  match s with
  | Some v => negb (String.eqb v "")
  | None => false
  end.

(** The fields of [Web3EthereumConfig] that the calls read; [web3] itself is
    the connection to the node, which the section below takes as the world. *)
Record Web3EthereumConfig : Type := {
  from : option string;
  gas : option float
}.

(** [EthereumSendOptions] of the provider interface. *)
Record EthereumSendOptions : Type := {
  opt_value : option Js.value;
  opt_gas : option float;
  opt_gasPrice : option float;
  additionalData : option string
}.

(** [{}], the default argument of [send]. *)
Definition no_options : EthereumSendOptions :=
  {| opt_value := None; opt_gas := None; opt_gasPrice := None;
     additionalData := None |}.

(** What is read of a web3 [Contract]: [options.address] and
    [options.jsonInterface]. *)
Record Contract : Type := {
  address : string;
  jsonInterface : Js.value
}.

(** The argument of [web3.eth.sendTransaction]. *)
Record TransactionConfig : Type := {
  tx_from : string;
  tx_to : string;
  tx_data : string;
  tx_gas : option float;
  tx_value : option Js.value;
  tx_gasPrice : option string
}.

(** The argument of [ContractSendMethod.send]. *)
Record SendMethodOptions : Type := {
  sm_from : string;
  sm_gas : option float;
  sm_value : option Js.value;
  sm_gasPrice : option string
}.

(** The two promises [toPromises] splits a PromiEvent into, as they settle. *)
Record Promises : Type := {
  hash : Eff.outcome Js.error string;
  receipt : Eff.outcome Js.error Js.value
}.

(** The part of a node's transaction object that is read. *)
Record Transaction : Type := { tx_nonce : Z }.

Record Web3Transaction : Type := {
  wt_receipt : Eff.outcome Js.error Js.value;
  wt_hash : string;
  data : string;
  nonce : Z;
  wt_from : string;
  wt_to : option string;
  wt_contractAbi : option Js.value
}.

(** Requests that reach the node. *)
Inductive event : Type :=
| GetAccounts
| SendTransaction (config : TransactionConfig)
| ContractMethodSend (encoded : string) (options : SendMethodOptions)
| GetTransaction (txHash : string).

Definition M := Eff.M event Js.error.

Section Provider.

(** The node and the wallet behind [config.web3]. *)
Variable eth_getAccounts : Eff.outcome Js.error (list string).
Variable eth_sendTransaction : TransactionConfig -> Promises.
Variable eth_getTransaction :
  nat -> string -> Eff.outcome Js.error (option Transaction).

(** The branded-string conversions of [@rarible/types]. *)
Variable toAddress : string -> Eff.outcome Js.error string.
Variable toBinary : string -> Eff.outcome Js.error string.
Variable toWord : string -> Eff.outcome Js.error string.

(** [Number.prototype.toString] *)
Variable number_toString : float -> string.

(** The [ContractSendMethod] built by the constructor from the method name
    and arguments: its [encodeABI()] and what its [send] settles with. *)
Record ContractSendMethod : Type := {
  encodeABI : string;
  method_send : SendMethodOptions -> Promises
}.

(** The tail of [getFrom]: the first of the wallet's accounts. *)
Definition firstAccount : M string :=
  Eff.emit GetAccounts ;;;
  accounts <- Eff.lift eth_getAccounts ;;
  match accounts with
  | first :: _ =>
      if String.eqb first ""
      then Eff.throw (Js.Error "Wallet is not connected")
      else Eff.ret first
  | [] => Eff.throw (Js.Error "Wallet is not connected")
  end.

(** [getFrom(web3, from)] *)
Definition getFrom (from : option string) : M string :=
  match from with
  | Some f => if negb (String.eqb f "") then Eff.ret f else firstAccount
  | None => firstAccount
  end.

(** One poll of [web3.eth.getTransaction(hash)], the body handed to
    [backOff]; [poll] counts the polls made so far. *)
Definition getTransaction_request (poll : nat) (txHash : string)
  : M Transaction :=
  Eff.emit (GetTransaction txHash) ;;;
  value <- Eff.lift (eth_getTransaction poll txHash) ;;
  match value with
  | Some v => Eff.ret v
  | None => Eff.throw (Js.Error "No transaction found")
  end.

(** [backOff(request, { numOfAttempts })]: run the request, and on a throw
    run it again until [numOfAttempts] attempts are used up; the last error
    is the one thrown.  The delays between attempts are not represented. *)
Fixpoint backOff {A} (attemptsLeft attemptNumber : nat)
    (request : nat -> M A) : M A :=
  match attemptsLeft with
  | O => Eff.throw (Js.Error "Something went wrong.")
  | S remaining =>
      Eff.try_catch (request attemptNumber)
        (fun e =>
           match remaining with
           | O => Eff.throw e
           | S _ => backOff remaining (S attemptNumber) request
           end)
  end.

Definition numOfAttempts : nat := 10.

(** [Web3FunctionCall.getTransaction] *)
Definition getTransaction (txHash : string) : M Transaction :=
  backOff numOfAttempts 0 (fun poll => getTransaction_request poll txHash).

(** [Web3FunctionCall.getData] *)
Definition getData (sendMethod : ContractSendMethod) : M string :=
  Eff.ret (encodeABI sendMethod).

(** [Web3FunctionCall.send] *)
Definition send (config : Web3EthereumConfig) (contract : Contract)
    (sendMethod : ContractSendMethod) (options : EthereumSendOptions)
  : M Web3Transaction :=
  account <- getFrom (from config) ;;
  from <- Eff.lift (toAddress account) ;;
  if truthy_string (additionalData options) then
    binaryExtra <- Eff.lift (toBinary (match additionalData options with
                                       | Some d => d
                                       | None => ""
                                       end)) ;;
    let additionalData := slice 2 binaryExtra in
    encoded <- getData sendMethod ;;
    binarySource <- Eff.lift (toBinary encoded) ;;
    let sourceData := slice 2 binarySource in
    let data := "0x" ++ sourceData ++ additionalData in
    let request :=
      {| tx_from := from;
         tx_to := address contract;
         tx_data := data;
         tx_gas := or_number (gas config) (opt_gas options);
         tx_value := opt_value options;
         tx_gasPrice := option_map number_toString (opt_gasPrice options) |} in
    Eff.emit (SendTransaction request) ;;;
    let promises := eth_sendTransaction request in
    hashValue <- Eff.lift (hash promises) ;;
    tx <- getTransaction hashValue ;;
    word <- Eff.lift (toWord hashValue) ;;
    binaryData <- Eff.lift (toBinary data) ;;
    to <- Eff.lift (toAddress (address contract)) ;;
    Eff.ret {| wt_receipt := receipt promises;
               wt_hash := word;
               data := binaryData;
               nonce := tx_nonce tx;
               wt_from := from;
               wt_to := Some to;
               wt_contractAbi := Some (jsonInterface contract) |}
  else
    let sendOptions :=
      {| sm_from := from;
         sm_gas := or_number (gas config) (opt_gas options);
         sm_value := opt_value options;
         sm_gasPrice := option_map number_toString (opt_gasPrice options) |} in
    Eff.emit (ContractMethodSend (encodeABI sendMethod) sendOptions) ;;;
    let promises := method_send sendMethod sendOptions in
    hashValue <- Eff.lift (hash promises) ;;
    tx <- getTransaction hashValue ;;
    word <- Eff.lift (toWord hashValue) ;;
    encoded <- getData sendMethod ;;
    binaryData <- Eff.lift (toBinary encoded) ;;
    to <- Eff.lift (toAddress (address contract)) ;;
    Eff.ret {| wt_receipt := receipt promises;
               wt_hash := word;
               data := binaryData;
               nonce := tx_nonce tx;
               wt_from := from;
               wt_to := Some to;
               wt_contractAbi := None |}.

End Provider.

(** The payloads handed to the node for inclusion in a transaction, in
    order: the [data] of each [sendTransaction], the encoded call of each
    contract-method [send]. *)
Fixpoint sent_payloads (trace : list event) : list string :=
  match trace with
  | [] => []
  | SendTransaction config :: rest => tx_data config :: sent_payloads rest
  | ContractMethodSend encoded _ :: rest => encoded :: sent_payloads rest
  | _ :: rest => sent_payloads rest
  end.

End Web3.

(** ** Asset and amount utilities *)

Module Amount.

(** Modelled from the spec: the basis-point fee utility of the asset/amount
    utilities, whose source file is not in the tree.  The specification gives
    it as multiply, then floor-divide by 10000. *)
Definition computeFee (value bps : Z) : Z := value * bps / 10000.

(** The exact share, as a rational: what [computeFee] approximates. *)
Definition exactShare (value bps : Z) : Q :=
  (inject_Z value * inject_Z bps / inject_Z 10000)%Q.

(** Round-half-to-even of a rational, the rounding [computeFee] must not
    use.  Kept for comparison. *)
Definition bankersRound (q : Q) : Z :=
  let lower := Qfloor q in
  match (q - inject_Z lower ?= 1 # 2)%Q with
  | Lt => lower
  | Gt => lower + 1
  | Eq => if Z.even lower then lower else lower + 1
  end.

(** Modelled from the spec: base units as a display amount, by the asset's
    declared decimals. *)
Definition toDisplay (baseUnits : Z) (decimals : nat) : Q :=
  (inject_Z baseUnits / inject_Z (10 ^ Z.of_nat decimals))%Q.

End Amount.

(** ** Order data model *)

Module Order.

(** Modelled from the spec: the asset-type variants of the order data model. *)
Inductive AssetType : Type :=
| ERC721 (contract tokenId : string)
| ERC1155 (contract tokenId : string)
| ERC20 (contract : string)
| NativeCoin
| CollectionWildcard (contract : string).

Record Asset : Type := { assetType : AssetType; value : Z }.

(** Modelled from the spec: the order record of the data model, with the
    per-order partial-fill flag and the origin network the wallet's network
    is checked against. *)
Record t : Type := {
  maker : string;
  taker : option string;
  make : Asset;
  take : Asset;
  salt : Z;
  start : Z;
  finish : Z;
  fill : Z;
  protocolTag : string;
  protocolData : string;
  allowPartialFills : bool;
  network : Z
}.

(** Modelled from the spec: the remaining fillable quantity of the
    dispatcher's amount check, [take.value - fill]. *)
Definition remaining (order : t) : Z := value (take order) - fill order.

End Order.

(** A caller-supplied origin fee, [{ account, value }]: the recipient and the
    fee in basis points. *)
Module OriginFee.

Record t : Type := { account : string; value : Z }.

End OriginFee.

(** ** Order fulfilment dispatcher *)

Module Dispatcher.

Import Order.

(** Modelled from the spec: the error taxonomy of the fulfilment engine,
    whose error classes are not in the tree. *)
Inductive ErrorKind : Type :=
| InsufficientFillAmount
| PartialFillNotSupported
| ChainMismatch
| UnsupportedProtocol
| UnsupportedAssetType
| OrderExpired
| FeeConfigMissing
| FeeNotFound
| UnsupportedFeeType
| NetworkError
| FulfillmentReverted.

(** Modelled from the spec: an error of the engine, which carries a
    human-readable message. *)
Record error : Type := { kind : ErrorKind; message : string }.

(** Modelled from the spec: the external calls at which a fulfilment
    suspends (fee-schedule fetch, nonce read, order lookup, transaction
    submission). *)
Inductive NetworkCall : Type :=
| FeeScheduleFetch (network : Z)
| NonceRead (maker : string)
| OrderLookup (orderHash : string)
| TransactionSubmission (target calldata : string) (value : Z).

(** Modelled from the spec: the pending transaction a fulfilment returns,
    with its metadata. *)
Record Metadata : Type := {
  md_protocol : string;
  md_method : string;
  md_args : list string
}.

Record PendingTransaction : Type := {
  target : string;
  calldata : string;
  value : Z;
  metadata : Metadata
}.

Definition M := Eff.M NetworkCall error.

(** Modelled from the spec: the interface every protocol order handler
    implements, [getOrderFee(order)] and [fulfill(order, amount,
    originFees)]; the handlers' sources are not in the tree. *)
Module ProtocolHandler.

Record t : Type := {
  getOrderFee : Order.t -> Z;
  fulfill : Order.t -> Z -> list OriginFee.t -> M PendingTransaction
}.

End ProtocolHandler.

Section Fulfill.

(** The wording of the errors whose message the specification leaves open. *)
Variable describe : ErrorKind -> string.

(** Modelled from the spec: the message of an error; the specification
    fixes the one of the partial-fill rejection. *)
Definition messageOf (k : ErrorKind) : string :=
  match k with
  | PartialFillNotSupported => "Order is not supported partial fill"
  | _ => describe k
  end.

Definition fail {A} (k : ErrorKind) : M A :=
  Eff.throw {| kind := k; message := messageOf k |}.

(** Modelled from the spec: what the dispatcher is constructed with, the
    registered handlers by protocol tag. *)
Record Config : Type := {
  handlers : list (string * ProtocolHandler.t)
}.

(** Modelled from the spec: the sending function the handlers are
    constructed with.  The wallet-network check is bound into it, as
    [seaport.test.ts] does with [checkChainId] and
    [getSimpleSendWithInjects], so [ChainMismatch] is raised when a handler
    sends its transaction, before the submission, and not by the
    dispatcher's own checks. *)
Definition send (walletNetwork : Z) (order : Order.t)
    (tx : PendingTransaction) : M PendingTransaction :=
  if negb (walletNetwork =? network order)
  then fail ChainMismatch
  else
    Eff.emit (TransactionSubmission (target tx) (calldata tx) (value tx)) ;;;
    Eff.ret tx.

(** Modelled from the spec: the handler registered for a protocol tag, if
    any. *)
Fixpoint resolve (registered : list (string * ProtocolHandler.t))
    (tag : string) : option ProtocolHandler.t :=
  match registered with
  | [] => None
  | (t, h) :: rest => if String.eqb t tag then Some h else resolve rest tag
  end.

(** Modelled from the spec: the dispatcher's [fulfill], whose source file is
    not in the tree.  Its own checks run in the order the specification
    lists them: fill amount, partial-fill eligibility, handler resolution,
    then delegation to the handler.  The wallet-network check is the one of
    [send], with which the handlers are constructed. *)
Definition fulfill (config : Config) (order : Order.t) (amount : Z)
    (originFees : list OriginFee.t) : M PendingTransaction :=
  if negb ((0 <? amount) && (amount <=? remaining order))
  then fail InsufficientFillAmount
  else if negb (allowPartialFills order) && (amount <? remaining order)
  then fail PartialFillNotSupported
  else match resolve (handlers config) (protocolTag order) with
       | None => fail UnsupportedProtocol
       | Some handler =>
           ProtocolHandler.fulfill handler order amount originFees
       end.

End Fulfill.

End Dispatcher.

(** ** Seaport consideration and origin fees *)

Module Seaport.

Import Order.

(** Modelled from the spec: an entry of a Seaport consideration list, a
    (token, amount, recipient) item. *)
Record ConsiderationItem : Type := {
  token : string;
  amount : Z;
  recipient : string
}.

(** Modelled from the spec: the extra consideration items a Seaport
    fulfilment appends for the caller's origin fees, one per entry, each
    [amount * bps / 10000] of the amount being paid.  The handler's source
    file is not in the tree. *)
Definition originFeeItems (currency : string) (paid : Z)
    (originFees : list OriginFee.t) : list ConsiderationItem :=
  map (fun fee => {| token := currency;
                     amount := Amount.computeFee paid (OriginFee.value fee);
                     recipient := OriginFee.account fee |}) originFees.

(** Modelled from the spec: the consideration of a fulfilment is the
    order's own consideration followed by the origin-fee items, which are
    not folded into the main transfer. *)
Definition fulfilledConsideration (consideration : list ConsiderationItem)
    (currency : string) (paid : Z) (originFees : list OriginFee.t)
  : list ConsiderationItem :=
  (consideration ++ originFeeItems currency paid originFees)%list.

(** What the fulfiller pays: every item of the consideration. *)
Definition totalPaid (items : list ConsiderationItem) : Z :=
  fold_right (fun item acc => amount item + acc) 0 items.

(** What one recipient receives. *)
Definition received (who : string) (items : list ConsiderationItem) : Z :=
  fold_right (fun item acc =>
                if String.eqb (recipient item) who then amount item + acc
                else acc) 0 items.

(** The sum of the origin fees charged on [paid]. *)
Definition originFeeTotal (paid : Z) (originFees : list OriginFee.t) : Z :=
  fold_right (fun fee acc => paid * OriginFee.value fee / 10000 + acc) 0
    originFees.

(** *** [getOpenseaWethTakeData] of [seaport.test.ts] *)

(** An input item as the test builds it; amounts are arbitrary-precision
    decimals, here rationals.  An absent recipient stands for the seller. *)
Record TakeItem : Type := {
  ti_token : string;
  ti_amount : Q;
  ti_endAmount : Q;
  ti_recipient : option string
}.

Definition weth : string := "0xc778417e063141139fce010982780140aa0cd5ab".
Definition openseaFeeRecipient : string :=
  "0x8de9c5a032463c561423387a9648c5c7bcc5bc90".

Definition getOpenseaWethTakeData (amount : Q) : list TakeItem :=
  let sellerAmount := (amount * (975 # 1000))%Q in
  let feeRecipientAmount := (amount * (25 # 1000))%Q in
  [ {| ti_token := weth;
       ti_amount := sellerAmount;
       ti_endAmount := sellerAmount;
       ti_recipient := None |};
    {| ti_token := weth;
       ti_amount := feeRecipientAmount;
       ti_endAmount := feeRecipientAmount;
       ti_recipient := Some openseaFeeRecipient |} ].

(** A decimal amount as base units, when it is a whole number of them. *)
Definition baseUnits (q : Q) : option Z :=
  let r := Qred q in
  if Pos.eqb (Qden r) 1 then Some (Qnum r) else None.

(** Modelled from the spec: the consideration list, of (token, amount,
    recipient) items, of the order that [createSeaportOrder] (not in the
    tree) creates from take items; the seller stands in for an absent
    recipient. *)
Fixpoint considerationOf (seller : string) (items : list TakeItem)
  : option (list ConsiderationItem) :=
  match items with
  | [] => Some []
  | item :: rest =>
      match baseUnits (ti_amount item), considerationOf seller rest with
      | Some units, Some tail =>
          Some ({| token := ti_token item;
                   amount := units;
                   recipient := match ti_recipient item with
                                | Some r => r
                                | None => seller
                                end |} :: tail)
      | _, _ => None
      end
  end.

End Seaport.

(** ** Sample data *)

Module Samples.

(** A fee table whose testnet entry configures [RARIBLE_V2] with 250 basis
    points, [OPEN_SEA_V1] as [null] and [AUCTION] as the empty string. *)
Definition testnetEntry : list (string * Js.value) :=
  [("RARIBLE_V2", Js.Number 250%float); ("OPEN_SEA_V1", Js.Null);
   ("AUCTION", Js.String "")].

Definition feeTable : list (string * Js.value) :=
  [("testnet", Js.Object testnetEntry)].

Definition feeConfig : Fee.EthereumConfig :=
  {| Fee.feeConfigUrl := "https://fee.example/config.json" |}.

(** A node that serves the table, and one that cannot be reached. *)
Definition serving (url : string) : Eff.outcome Js.error Js.value :=
  Eff.Returned (Js.Object feeTable).

Definition networkDown : Js.error := Js.mkError "AxiosError" "Network Error".

Definition unreachable (url : string) : Eff.outcome Js.error Js.value :=
  Eff.Thrown networkDown.

(** A logger that records and returns. *)
Definition logOnly (e : Js.error) (code : Fee.NetworkErrorCode)
  : Eff.outcome Js.error unit := Eff.Returned tt.

Definition noRuntimeNumber (v : Js.value) : float := PrimFloat.nan.

(** Modelled from the spec: the error the specification names for a
    transport failure of the fetch, a [NetworkError].  It is made by the
    helper of the logger package, whose source is not in the tree, and
    carries the message of the axios error it is made of. *)
Definition networkError (e : Js.error) : Js.error :=
  Js.mkError "NetworkError" (Js.errMessage e).

(** Modelled from the spec: the helper itself, which throws the
    [NetworkError] made of an axios error and returns on any other. *)
Definition raiseNetworkError (e : Js.error) (code : Fee.NetworkErrorCode)
  : Eff.outcome Js.error unit :=
  if String.eqb (Js.errName e) "AxiosError"
  then Eff.Thrown (networkError e)
  else Eff.Returned tt.

(** *** A wallet and node for [send] *)

Definition buyer : string := "0x00120de4b1518cf1f16dc1b02f6b4a8ac29e8701".
Definition exchange : string := "0x1af7a7555263f275433c6bb0b8fdcd231f89b1d7".

Definition accounts : Eff.outcome Js.error (list string) :=
  Eff.Returned [buyer].

Definition submitted (request : Web3.TransactionConfig) : Web3.Promises :=
  {| Web3.hash := Eff.Returned "0xfeed";
     Web3.receipt := Eff.Returned (Js.Object [("status", Js.Bool true)]) |}.

(** The node knows the transaction from the third poll on. *)
Definition pollTransaction (poll : nat) (txHash : string)
  : Eff.outcome Js.error (option Web3.Transaction) :=
  Eff.Returned (if Nat.ltb poll 2 then None
                else Some {| Web3.tx_nonce := 7 |}).

Definition unchecked (s : string) : Eff.outcome Js.error string :=
  Eff.Returned s.

(** A conversion that prefixes [0x] unless it is there. *)
Definition ensure0x (s : string) : Eff.outcome Js.error string :=
  Eff.Returned match s with
               | String "0" (String "x" _) => s
               | _ => "0x" ++ s
               end.

(** A conversion that strips a [0x] prefix, puts the rest in lower case,
    refuses what is not hexadecimal and prefixes [0x]. *)
Definition lowerChar (c : ascii) : ascii :=
  let n := nat_of_ascii c in
  if Nat.leb 65 n && Nat.leb n 90 then ascii_of_nat (n + 32) else c.

Fixpoint toLowerCase (s : string) : string :=
  match s with
  | EmptyString => EmptyString
  | String c rest => String (lowerChar c) (toLowerCase rest)
  end.

Definition isHexDigit (c : ascii) : bool :=
  let n := nat_of_ascii c in
  (Nat.leb 48 n && Nat.leb n 57) || (Nat.leb 97 n && Nat.leb n 102).

Fixpoint allHex (s : string) : bool :=
  match s with
  | EmptyString => true
  | String c rest => isHexDigit c && allHex rest
  end.

Definition strip0x (s : string) : string :=
  match s with
  | String "0" (String "x" rest) => rest
  | _ => s
  end.

Definition lowerHex (s : string) : Eff.outcome Js.error string :=
  let hex := toLowerCase (strip0x s) in
  if allHex hex then Eff.Returned ("0x" ++ hex)
  else Eff.Thrown (Js.Error ("not a binary: " ++ s)).

(** Additional calldata written in upper case. *)
Definition upperOptions : Web3.EthereumSendOptions :=
  {| Web3.opt_value := None; Web3.opt_gas := None; Web3.opt_gasPrice := None;
     Web3.additionalData := Some "0xABCDEF" |}.

Definition printNumber (n : float) : string := "1000000".

Definition matchOrders : Web3.ContractSendMethod :=
  {| Web3.encodeABI := "0xe99a3f80aa55";
     Web3.method_send := fun _ =>
       {| Web3.hash := Eff.Returned "0xbeef";
          Web3.receipt := Eff.Returned Js.Null |} |}.

Definition exchangeContract : Web3.Contract :=
  {| Web3.address := exchange; Web3.jsonInterface := Js.Array [] |}.

Definition walletConfig : Web3.Web3EthereumConfig :=
  {| Web3.from := None; Web3.gas := Some 1000000%float |}.

(** The fill calldata of the LooksRare test: the zero address, then
    [00000009]. *)
Definition fillCalldata : string :=
  "0x000000000000000000000000000000000000000000000009".

Definition sendOptions : Web3.EthereumSendOptions :=
  {| Web3.opt_value := None; Web3.opt_gas := None; Web3.opt_gasPrice := None;
     Web3.additionalData := Some fillCalldata |}.

Definition sentData : string :=
  "0xe99a3f80aa55000000000000000000000000000000000000000000000009".

Definition sentTransaction : Web3.Web3Transaction :=
  {| Web3.wt_receipt := Eff.Returned (Js.Object [("status", Js.Bool true)]);
     Web3.wt_hash := "0xfeed";
     Web3.data := sentData;
     Web3.nonce := 7;
     Web3.wt_from := buyer;
     Web3.wt_to := Some exchange;
     Web3.wt_contractAbi := Some (Js.Array []) |}.

(** *** Orders and a dispatcher *)

Definition seller : string := "0x6370fd033278c143179d81c5526140625662b8da".
Definition originFeeAddress : string :=
  "0xe954de45ec23bF47078db77f34ef0d905F4D3051".

(** The order of the restricted-partial-fill test: ten ERC-1155 items for
    10000000000 wei, partial fills not allowed, on network 4. *)
Definition restrictedOrder : Order.t :=
  {| Order.maker := seller;
     Order.taker := None;
     Order.make := {| Order.assetType := Order.ERC1155 exchange "1";
                      Order.value := 10 |};
     Order.take := {| Order.assetType := Order.NativeCoin;
                      Order.value := 10000000000 |};
     Order.salt := 1;
     Order.start := 0;
     Order.finish := 0;
     Order.fill := 0;
     Order.protocolTag := "SEAPORT_V1";
     Order.protocolData := "";
     Order.allowPartialFills := false;
     Order.network := 4 |}.


Definition wording (k : Dispatcher.ErrorKind) : string := "fulfilment failed".

(** A handler, constructed with the sending function of a wallet on network
    4, that fetches the fee schedule and sends one transaction. *)
Definition seaportHandler : Dispatcher.ProtocolHandler.t :=
  {| Dispatcher.ProtocolHandler.getOrderFee := fun _ => 250;
     Dispatcher.ProtocolHandler.fulfill := fun order amount _ =>
       Eff.emit (Dispatcher.FeeScheduleFetch (Order.network order)) ;;;
       Dispatcher.send wording 4 order
         {| Dispatcher.target := exchange;
            Dispatcher.calldata := "0x";
            Dispatcher.value := amount;
            Dispatcher.metadata :=
              {| Dispatcher.md_protocol := "SEAPORT_V1";
                 Dispatcher.md_method := "fulfillAdvancedOrder";
                 Dispatcher.md_args := [] |} |} |}.

Definition dispatcher : Dispatcher.Config :=
  {| Dispatcher.handlers := [("SEAPORT_V1", seaportHandler)] |}.

(** The origin fee of the WETH test: 1000 basis points. *)
Definition tenPercent : OriginFee.t :=
  {| OriginFee.account := originFeeAddress; OriginFee.value := 1000 |}.

End Samples.

(** ** More of the web3 provider: calls, signing and sent transactions *)

Module Web3Provider.

(** What the node is asked to include in a block: a raw transaction, or a
    call sent through the contract method. *)
Inductive submission : Type :=
| Raw (config : Web3.TransactionConfig)
| ViaMethod (encoded : string) (options : Web3.SendMethodOptions).

Fixpoint submissions (trace : list Web3.event) : list submission :=
  match trace with
  | [] => []
  | Web3.SendTransaction config :: rest => Raw config :: submissions rest
  | Web3.ContractMethodSend encoded options :: rest =>
      ViaMethod encoded options :: submissions rest
  | _ :: rest => submissions rest
  end.

(** The polls for a transaction that a trace records. *)
Fixpoint polls (trace : list Web3.event) : list string :=
  match trace with
  | [] => []
  | Web3.GetTransaction txHash :: rest => txHash :: polls rest
  | _ :: rest => polls rest
  end.

(** The promises a submission is answered with: those of
    [web3.eth.sendTransaction] for a raw transaction, those of the method's
    [send] for a call sent through the contract method. *)
Definition promises_of
    (eth_sendTransaction : Web3.TransactionConfig -> Web3.Promises)
    (sendMethod : Web3.ContractSendMethod) (s : submission) : Web3.Promises :=
  match s with
  | Raw config => eth_sendTransaction config
  | ViaMethod _ options => Web3.method_send sendMethod options
  end.

(** [EthereumFunctionCallInfo] of the provider interface. *)
Record EthereumFunctionCallInfo : Type := {
  method : string;
  contract : string;
  args : list Js.value;
  from : string;
  provider : string
}.

Section FunctionCall.

Variable eth_getAccounts : Eff.outcome Js.error (list string).

(** [Web3FunctionCall.getCallInfo], for the call of [methodName] with [args]
    on [contract]. *)
Definition getCallInfo (config : Web3.Web3EthereumConfig)
    (contract : Web3.Contract) (methodName : string) (args : list Js.value)
  : Web3.M EthereumFunctionCallInfo :=
  account <- Web3.getFrom eth_getAccounts (Web3.from config) ;;
  Eff.ret {| method := methodName;
             contract := Web3.address contract;
             args := args;
             from := account;
             provider := "web3" |}.

End FunctionCall.

Section Transaction.

(** The two parsers of [./utils/log-parser], by what they settle with; the
    second may settle with [undefined]. *)
Variable getTransactionReceiptEvents :
  Eff.outcome Js.error Js.value -> string -> Js.value ->
  Eff.outcome Js.error (list Js.value).
Variable getContractMethodReceiptEvents :
  Eff.outcome Js.error Js.value -> Eff.outcome Js.error (option (list Js.value)).

(** [Web3Transaction.wait] *)
Definition wait (tx : Web3.Web3Transaction) : Eff.outcome Js.error Js.value :=
  Web3.wt_receipt tx.

(** [await getContractMethodReceiptEvents(this.receipt) || []] *)
Definition methodReceiptEvents (tx : Web3.Web3Transaction)
  : Eff.outcome Js.error (list Js.value) :=
  match getContractMethodReceiptEvents (Web3.wt_receipt tx) with
  | Eff.Returned (Some events) => Eff.Returned events
  | Eff.Returned None => Eff.Returned []
  | Eff.Thrown e => Eff.Thrown e
  end.

(** [Web3Transaction.getEvents] *)
Definition getEvents (tx : Web3.Web3Transaction)
  : Eff.outcome Js.error (list Js.value) :=
  match Web3.wt_to tx, Web3.wt_contractAbi tx with
  | Some to, Some contractAbi =>
      if negb (String.eqb to "") && Js.truthy contractAbi
      then getTransactionReceiptEvents (Web3.wt_receipt tx) to contractAbi
      else methodReceiptEvents tx
  | _, _ => methodReceiptEvents tx
  end.

End Transaction.

(** Requests of [Web3Ethereum]: those of the node, and the wallet's
    [personal.sign]. *)
Inductive event : Type :=
| Node (ev : Web3.event)
| PersonalSign (message signer : string).

Definition M := Eff.M event Js.error.

(** A node computation inside [Web3Ethereum]; node computations only add to
    the trace. *)
Definition node {A} (m : Web3.M A) : M A :=
  fun tr =>
    match m [] with
    | (added, o) => ((tr ++ map Node added)%list, o)
    end.

Section Signing.

Variable eth_getAccounts : Eff.outcome Js.error (list string).

(** [web3.eth.personal.sign(message, signer)] *)
Variable personal_sign : string -> string -> Eff.outcome Js.error string.

(** [Web3Ethereum.getFrom] *)
Definition getFrom (config : Web3.Web3EthereumConfig) : M string :=
  node (Web3.getFrom eth_getAccounts (Web3.from config)).

(** [Web3Ethereum.personalSign] *)
Definition personalSign (config : Web3.Web3EthereumConfig) (message : string)
  : M string :=
  signer <- getFrom config ;;
  Eff.emit (PersonalSign message signer) ;;;
  Eff.lift (personal_sign message signer).

End Signing.

(** The signing requests a trace records. *)
Fixpoint signings (trace : list event) : list (string * string) :=
  match trace with
  | [] => []
  | PersonalSign message signer :: rest => (message, signer) :: signings rest
  | Node _ :: rest => signings rest
  end.

End Web3Provider.

(** ** More sample data *)

Module EdgeSamples.

(** Fee tables with entries that are not objects. *)
Definition oddTable : list (string * Js.value) :=
  [("mainnet", Js.Null); ("testnet", Js.Number 250%float);
   ("polygon", Js.Object [("RARIBLE_V2", Js.Number PrimFloat.nan)])].

Definition servingOdd (url : string) : Eff.outcome Js.error Js.value :=
  Eff.Returned (Js.Object oddTable).

(** An endpoint that answers with the JSON value [null]. *)
Definition servingNull (url : string) : Eff.outcome Js.error Js.value :=
  Eff.Returned Js.Null.

(** A wallet without accounts. *)
Definition noAccounts : Eff.outcome Js.error (list string) := Eff.Returned [].

(** A node that never learns of the transaction. *)
Definition neverFound (poll : nat) (txHash : string)
  : Eff.outcome Js.error (option Web3.Transaction) := Eff.Returned None.

Definition userRejected : Js.error :=
  Js.mkError "Error" "User denied transaction signature".

(** A contract method whose [send] is rejected in the wallet. *)
Definition rejectedMethod : Web3.ContractSendMethod :=
  {| Web3.encodeABI := "0xe99a3f80aa55";
     Web3.method_send := fun _ =>
       {| Web3.hash := Eff.Thrown userRejected;
          Web3.receipt := Eff.Thrown userRejected |} |}.

Definition plainOptions : Web3.EthereumSendOptions :=
  {| Web3.opt_value := None; Web3.opt_gas := None; Web3.opt_gasPrice := None;
     Web3.additionalData := Some "" |}.

Definition fromConfigured : Web3.Web3EthereumConfig :=
  {| Web3.from := Some Samples.buyer; Web3.gas := None |}.

Definition plainTransaction : Web3.Web3Transaction :=
  {| Web3.wt_receipt := Eff.Returned Js.Null;
     Web3.wt_hash := "0xbeef";
     Web3.data := "0xe99a3f80aa55";
     Web3.nonce := 7;
     Web3.wt_from := Samples.buyer;
     Web3.wt_to := Some Samples.exchange;
     Web3.wt_contractAbi := None |}.

Definition abiEvents (receipt : Eff.outcome Js.error Js.value) (to : string)
    (abi : Js.value) : Eff.outcome Js.error (list Js.value) :=
  Eff.Returned [Js.String "Match"].

Definition methodEvents (receipt : Eff.outcome Js.error Js.value)
  : Eff.outcome Js.error (option (list Js.value)) := Eff.Returned None.

Definition signWith (message signer : string) : Eff.outcome Js.error string :=
  Eff.Returned ("0xsigned:" ++ message).

(** Four runs of [send]: with additional calldata against a node that finds
    the transaction on the third poll, and against one that never does;
    without additional calldata, found on the third poll, and rejected in
    the wallet. *)
Definition additionalRun :=
  Eff.run (Web3.send Samples.accounts Samples.submitted Samples.pollTransaction
             Samples.unchecked Samples.ensure0x Samples.unchecked
             Samples.printNumber Samples.walletConfig Samples.exchangeContract
             Samples.matchOrders Samples.sendOptions).

Definition lostRun :=
  Eff.run (Web3.send Samples.accounts Samples.submitted neverFound
             Samples.unchecked Samples.ensure0x Samples.unchecked
             Samples.printNumber Samples.walletConfig Samples.exchangeContract
             Samples.matchOrders Samples.sendOptions).

Definition plainRun :=
  Eff.run (Web3.send Samples.accounts Samples.submitted Samples.pollTransaction
             Samples.unchecked Samples.ensure0x Samples.unchecked
             Samples.printNumber fromConfigured Samples.exchangeContract
             Samples.matchOrders plainOptions).

Definition rejectedRun :=
  Eff.run (Web3.send Samples.accounts Samples.submitted Samples.pollTransaction
             Samples.unchecked Samples.ensure0x Samples.unchecked
             Samples.printNumber fromConfigured Samples.exchangeContract
             rejectedMethod plainOptions).

(** The request of the run with additional calldata, and the options of the
    runs without. *)
Definition rawRequest : Web3.TransactionConfig :=
  {| Web3.tx_from := Samples.buyer;
     Web3.tx_to := Samples.exchange;
     Web3.tx_data := Samples.sentData;
     Web3.tx_gas := Some 1000000%float;
     Web3.tx_value := None;
     Web3.tx_gasPrice := None |}.

Definition methodOptions : Web3.SendMethodOptions :=
  {| Web3.sm_from := Samples.buyer;
     Web3.sm_gas := None;
     Web3.sm_value := None;
     Web3.sm_gasPrice := None |}.

Definition callInfo : Web3Provider.EthereumFunctionCallInfo :=
  {| Web3Provider.method := "matchOrders";
     Web3Provider.contract := Samples.exchange;
     Web3Provider.args := [];
     Web3Provider.from := Samples.buyer;
     Web3Provider.provider := "web3" |}.

End EdgeSamples.

(** * Properties *)

(** ** Strings *)

Lemma prefix_app (s rest : string) : String.prefix s (s ++ rest) = true.
Proof.
  induction s as [|c s IH]; cbn.
  - now destruct rest.
  - destruct (Ascii.ascii_dec c c) as [_|Hneq]; [exact IH | congruence].
Qed.

(** A string includes each of its infixes. *)
Lemma includes_infix (before s after : string) :
  Js.includes (before ++ s ++ after) s = true.
Proof.
  induction before as [|c before IH].
  - cbn [append]. destruct (s ++ after) eqn:E; cbn [Js.includes];
      rewrite <- E, prefix_app; reflexivity.
  - cbn [append Js.includes]. rewrite IH.
    destruct (String.prefix s (String c (before ++ s ++ after))); reflexivity.
Qed.

Lemma append_empty (s : string) : s ++ "" = s.
Proof. induction s as [|c s IH]; cbn; [reflexivity | now rewrite IH]. Qed.

(** In particular, a string includes what it ends with. *)
Lemma includes_tail (before s : string) : Js.includes (before ++ s) s = true.
Proof.
  rewrite <- (append_empty s) at 1. apply includes_infix.
Qed.

(** ** Fee resolver *)

Ltac eff_unfold :=
  unfold Eff.run, Eff.bind, Eff.try_catch, Eff.emit, Eff.lift, Eff.throw,
    Eff.ret.

Section FeeProperties.

Variable axios_get : string -> Eff.outcome Js.error Js.value.
Variable handleAxiosErrorResponse :
  Js.error -> Fee.NetworkErrorCode -> Eff.outcome Js.error unit.
Variable CURRENT_ORDER_TYPE_VERSION : string.
Variable to_number_runtime : Js.value -> float.

Let getBaseFee :=
  Fee.getBaseFee axios_get handleAxiosErrorResponse CURRENT_ORDER_TYPE_VERSION
    to_number_runtime.

(** When the table has a truthy entry for the network, the fetch block
    performs one GET and hands the entry on. *)
Lemma fetchEnvFeeConfig_found config env table entry tr :
  axios_get (Fee.feeConfigUrl config) = Eff.Returned (Js.Object table) ->
  Js.own_property table env = Some entry ->
  Js.truthy entry = true ->
  Fee.fetchEnvFeeConfig axios_get handleAxiosErrorResponse config env tr
  = ((tr ++ [Fee.AxiosGet (Fee.feeConfigUrl config)])%list, Eff.Returned entry).
Proof.
  intros Hget Hown Htruthy.
  unfold Fee.fetchEnvFeeConfig. eff_unfold.
  rewrite Hget. cbn. rewrite Hown, Htruthy. reflexivity.
Qed.

(** A number that is not NaN compares equal to what [Number(n || 0)] makes
    of it: itself when truthy, +0 when it is a zero. *)
Lemma to_number_or_zero n :
  PrimFloat.is_nan n = false ->
  PrimFloat.eqb n
    (Js.to_number to_number_runtime (Js.or (Js.Number n) (Js.Number PrimFloat.zero)))
  = true.
Proof.
  intros Hnan. unfold Js.or, Js.truthy. rewrite Hnan, orb_false_r.
  destruct (PrimFloat.eqb n PrimFloat.zero) eqn:Hzero; cbn.
  - exact Hzero.
  - unfold PrimFloat.is_nan in Hnan. now apply negb_false_iff in Hnan.
Qed.

(** X1: whatever the fetch settles with and however the call ends,
    [getBaseFee] starts with the GET and makes no further one. *)
Lemma getBaseFee_fetches_once config env type trace outcome :
  Eff.run (getBaseFee config env type) = (trace, outcome) ->
  exists rest,
    trace = Fee.AxiosGet (Fee.feeConfigUrl config) :: rest
    /\ Forall (fun ev => match ev with
                         | Fee.AxiosGet _ => False
                         | _ => True
                         end) rest.
Proof.
  unfold getBaseFee, Fee.getBaseFee, Fee.fetchEnvFeeConfig. eff_unfold. cbn.
  destruct (axios_get (Fee.feeConfigUrl config)) as [data|e]; cbn.
  - destruct (Js.get data env) as [entry|e]; cbn.
    + destruct (Js.truthy entry); cbn.
      * destruct (Js.has _ entry) as [[|]|e]; cbn;
          [destruct (Js.get entry _); cbn| |];
          intros H; inversion H; subst; eexists; split; first [reflexivity | constructor].
      * destruct (handleAxiosErrorResponse _ _); cbn;
          intros H; inversion H; subst; eexists; split;
          first [reflexivity | repeat constructor].
    + destruct (handleAxiosErrorResponse _ _); cbn;
        intros H; inversion H; subst; eexists; split;
        first [reflexivity | repeat constructor].
  - destruct (handleAxiosErrorResponse _ _); cbn;
      intros H; inversion H; subst; eexists; split;
      first [reflexivity | repeat constructor].
Qed.

(** C5: with the table fetched, [getBaseFee] throws
    ["Fee config was not found for <env>"] when the table has no entry for
    the network (after logging, provided the logger returns), throws
    ["Unsupported fee type <type>"] when the network's entry lacks the type
    key, and otherwise returns [Number(configured || 0)], which for a
    configured number is that number. *)
Theorem getBaseFee_lookup config env type table :
  axios_get (Fee.feeConfigUrl config) = Eff.Returned (Js.Object table) ->
  let url := Fee.feeConfigUrl config in
  let notFound := Js.Error ("Fee config was not found for " ++ env) in
  (Js.own_property table env = None ->
   handleAxiosErrorResponse notFound Fee.ETHEREUM_EXTERNAL_ERR = Eff.Returned tt ->
   Eff.run (getBaseFee config env (Some type))
   = ([Fee.AxiosGet url; Fee.ConsoleError notFound;
       Fee.HandleAxiosErrorResponse notFound Fee.ETHEREUM_EXTERNAL_ERR],
      Eff.Thrown notFound)
   /\ Js.includes (Js.errMessage notFound) env = true)
  /\ (forall fields,
        Js.own_property table env = Some (Js.Object fields) ->
        Js.own_property fields type = None ->
        Eff.run (getBaseFee config env (Some type))
        = ([Fee.AxiosGet url],
           Eff.Thrown (Js.Error ("Unsupported fee type " ++ type)))
        /\ Js.includes ("Unsupported fee type " ++ type) type = true)
  /\ (forall fields configured,
        Js.own_property table env = Some (Js.Object fields) ->
        Js.own_property fields type = Some configured ->
        Eff.run (getBaseFee config env (Some type))
        = ([Fee.AxiosGet url],
           Eff.Returned (Js.to_number to_number_runtime
                           (Js.or configured (Js.Number PrimFloat.zero))))
        /\ forall n, configured = Js.Number n -> PrimFloat.is_nan n = false ->
             PrimFloat.eqb n
               (Js.to_number to_number_runtime
                  (Js.or configured (Js.Number PrimFloat.zero))) = true).
Proof.
  intros Hget url notFound. subst url notFound.
  split; [intros Hown Hlog | split; [intros fields Hown Htype
                                    | intros fields configured Hown Htype]];
    split.
  - unfold getBaseFee, Fee.getBaseFee, Fee.fetchEnvFeeConfig. eff_unfold.
    rewrite Hget. cbn. rewrite Hown. cbn in Hlog |- *. rewrite Hlog.
    reflexivity.
  - apply includes_tail.
  - unfold getBaseFee, Fee.getBaseFee, Eff.run, Eff.bind.
    rewrite (fetchEnvFeeConfig_found config env table _ [] Hget Hown eq_refl).
    cbn. rewrite Htype. reflexivity.
  - apply includes_tail.
  - unfold getBaseFee, Fee.getBaseFee, Eff.run, Eff.bind.
    rewrite (fetchEnvFeeConfig_found config env table _ [] Hget Hown eq_refl).
    cbn. rewrite Htype. reflexivity.
  - intros n -> Hnan. now apply to_number_or_zero.
Qed.

(** C6: when the fetch is rejected with [e], there is one GET and no other,
    [e] is written to the console and handed to the logger with the
    [ETHEREUM_EXTERNAL_ERR] tag, and the call throws: no fee value is
    returned in its place.  What the call throws is what the logger's
    helper throws, when it throws, and [e] itself only when the helper
    returns. *)
Theorem getBaseFee_transport_failure config env type e :
  axios_get (Fee.feeConfigUrl config) = Eff.Thrown e ->
  let logged :=
    [Fee.AxiosGet (Fee.feeConfigUrl config); Fee.ConsoleError e;
     Fee.HandleAxiosErrorResponse e Fee.ETHEREUM_EXTERNAL_ERR] in
  (exists thrown,
     Eff.run (getBaseFee config env type) = (logged, Eff.Thrown thrown))
  /\ (handleAxiosErrorResponse e Fee.ETHEREUM_EXTERNAL_ERR = Eff.Returned tt ->
      Eff.run (getBaseFee config env type) = (logged, Eff.Thrown e))
  /\ (forall other,
        handleAxiosErrorResponse e Fee.ETHEREUM_EXTERNAL_ERR = Eff.Thrown other ->
        Eff.run (getBaseFee config env type) = (logged, Eff.Thrown other)).
Proof.
  intros Hget logged.
  unfold getBaseFee, Fee.getBaseFee, Fee.fetchEnvFeeConfig. eff_unfold.
  rewrite Hget. cbn.
  destruct (handleAxiosErrorResponse e Fee.ETHEREUM_EXTERNAL_ERR) as [[]|e'];
    (split; [eauto | split]); try discriminate; try reflexivity.
  intros other Hother. now inversion Hother.
Qed.

(** C9: a fee-type key that is present with a falsy value (0, null, the empty
    string, false) does not make [getBaseFee] fail: after the single fetch it
    returns the number 0. *)
Theorem getBaseFee_falsy_value_is_zero config env type table fields configured :
  axios_get (Fee.feeConfigUrl config) = Eff.Returned (Js.Object table) ->
  Js.own_property table env = Some (Js.Object fields) ->
  Js.own_property fields type = Some configured ->
  Js.truthy configured = false ->
  Eff.run (getBaseFee config env (Some type))
  = ([Fee.AxiosGet (Fee.feeConfigUrl config)], Eff.Returned PrimFloat.zero).
Proof.
  intros Hget Henv Htype Hfalsy.
  unfold getBaseFee, Fee.getBaseFee, Eff.run, Eff.bind.
  rewrite (fetchEnvFeeConfig_found config env table _ [] Hget Henv eq_refl).
  cbn. rewrite Htype. cbn. unfold Js.or. rewrite Hfalsy. reflexivity.
Qed.

End FeeProperties.

(** ** The effect monad *)

Lemma bind_returned {Ev E A B} (m : Eff.M Ev E A) (k : A -> Eff.M Ev E B)
    tr tr' b :
  Eff.bind m k tr = (tr', Eff.Returned b) ->
  exists a tr1, m tr = (tr1, Eff.Returned a) /\ k a tr1 = (tr', Eff.Returned b).
Proof.
  unfold Eff.bind. destruct (m tr) as [tr1 [a|e]]; intros H.
  - now exists a, tr1.
  - discriminate.
Qed.

Lemma lift_returned {Ev E A} (o : Eff.outcome E A) (tr tr' : list Ev) a :
  Eff.lift o tr = (tr', Eff.Returned a) -> o = Eff.Returned a /\ tr' = tr.
Proof. unfold Eff.lift. intros H. now inversion H. Qed.

(** ** Web3 function call *)

Lemma slice_length_app (a b : string) : Web3.slice (String.length a) (a ++ b) = b.
Proof.
  induction a as [|c a IH]; cbn.
  - now destruct b.
  - exact IH.
Qed.

Lemma length_app (a b : string) :
  String.length (a ++ b) = (String.length a + String.length b)%nat.
Proof. induction a as [|c a IH]; cbn; [reflexivity | now rewrite IH]. Qed.

Lemma endsWith_app (a b : string) : Web3.endsWith (a ++ b) b = true.
Proof.
  unfold Web3.endsWith. rewrite length_app.
  replace (String.length a + String.length b - String.length b)%nat
    with (String.length a) by lia.
  rewrite slice_length_app. apply String.eqb_refl.
Qed.

Lemma sent_payloads_app (a b : list Web3.event) :
  Web3.sent_payloads (a ++ b) = (Web3.sent_payloads a ++ Web3.sent_payloads b)%list.
Proof.
  induction a as [|ev a IH]; cbn; [reflexivity|].
  destruct ev; cbn; now rewrite IH.
Qed.

Section Web3Properties.

Variable eth_getAccounts : Eff.outcome Js.error (list string).
Variable eth_sendTransaction : Web3.TransactionConfig -> Web3.Promises.
Variable eth_getTransaction :
  nat -> string -> Eff.outcome Js.error (option Web3.Transaction).
Variable toAddress : string -> Eff.outcome Js.error string.
Variable toBinary : string -> Eff.outcome Js.error string.
Variable toWord : string -> Eff.outcome Js.error string.
Variable number_toString : float -> string.

Let send :=
  Web3.send eth_getAccounts eth_sendTransaction eth_getTransaction
    toAddress toBinary toWord number_toString.

(** Looking up the sender hands nothing to the node for inclusion. *)
Lemma getFrom_payloads from tr tr' o :
  Web3.getFrom eth_getAccounts from tr = (tr', o) ->
  Web3.sent_payloads tr' = Web3.sent_payloads tr.
Proof.
  assert (Hfirst : forall tr tr' o,
             Web3.firstAccount eth_getAccounts tr = (tr', o) ->
             Web3.sent_payloads tr' = Web3.sent_payloads tr).
  { clear. intros tr tr' o. unfold Web3.firstAccount. eff_unfold.
    destruct eth_getAccounts as [[|first rest]|e]; cbn;
      [| destruct (String.eqb first "") |]; intros H; inversion H; subst;
      rewrite sent_payloads_app; cbn; apply app_nil_r. }
  unfold Web3.getFrom. destruct from as [f|]; [|apply Hfirst].
  destruct (negb (String.eqb f "")); [|apply Hfirst].
  unfold Eff.ret. intros H. now inversion H.
Qed.

(** Polling for the transaction, however often, sends no payload. *)
Lemma backOff_payloads {A} (request : nat -> Web3.M A) :
  (forall poll tr tr' o, request poll tr = (tr', o) ->
                         Web3.sent_payloads tr' = Web3.sent_payloads tr) ->
  forall attempts attemptNumber tr tr' o,
    Web3.backOff attempts attemptNumber request tr = (tr', o) ->
    Web3.sent_payloads tr' = Web3.sent_payloads tr.
Proof.
  intros Hrequest attempts.
  induction attempts as [|remaining IH]; intros attemptNumber tr tr' o; cbn.
  - unfold Eff.throw. intros H. now inversion H.
  - unfold Eff.try_catch.
    destruct (request attemptNumber tr) as [tr1 [a|e]] eqn:Hreq;
      pose proof (Hrequest _ _ _ _ Hreq) as Hsame.
    + intros H. inversion H; subst. exact Hsame.
    + destruct remaining as [|remaining'].
      * unfold Eff.throw. intros H. inversion H; subst. exact Hsame.
      * intros H. apply IH in H. congruence.
Qed.

Lemma getTransaction_payloads txHash tr tr' o :
  Web3.getTransaction eth_getTransaction txHash tr = (tr', o) ->
  Web3.sent_payloads tr' = Web3.sent_payloads tr.
Proof.
  unfold Web3.getTransaction. apply backOff_payloads.
  clear. intros poll tr tr' o. unfold Web3.getTransaction_request. eff_unfold.
  destruct (eth_getTransaction poll txHash) as [[v|]|e]; intros H;
    inversion H; subst; rewrite sent_payloads_app; cbn; apply app_nil_r.
Qed.

(** One poll that does not find the transaction: the request is recorded
    and something is thrown. *)
Lemma getTransaction_request_missing poll txHash tr :
  (forall v, eth_getTransaction poll txHash <> Eff.Returned (Some v)) ->
  exists e,
    Web3.getTransaction_request eth_getTransaction poll txHash tr
    = ((tr ++ [Web3.GetTransaction txHash])%list, Eff.Thrown e).
Proof.
  intros Hmissing. unfold Web3.getTransaction_request. eff_unfold.
  destruct (eth_getTransaction poll txHash) as [[v|]|e] eqn:Hpoll.
  - now destruct (Hmissing v).
  - eexists; reflexivity.
  - eexists; reflexivity.
Qed.

(** The retry loop returns the transaction once a poll within the allowed
    attempts finds it, after one request per poll. *)
Lemma backOff_finds txHash v k :
  forall attempts start tr,
    (k < attempts)%nat ->
    (forall j, (j < k)%nat ->
       forall w, eth_getTransaction (start + j) txHash <> Eff.Returned (Some w)) ->
    eth_getTransaction (start + k) txHash = Eff.Returned (Some v) ->
    Web3.backOff attempts start
      (fun poll => Web3.getTransaction_request eth_getTransaction poll txHash) tr
    = ((tr ++ repeat (Web3.GetTransaction txHash) (S k))%list, Eff.Returned v).
Proof.
  induction k as [|k IH]; intros attempts start tr Hlt Hmissing Hfound;
    (destruct attempts as [|remaining]; [lia|]); cbn [Web3.backOff];
    unfold Eff.try_catch.
  - rewrite Nat.add_0_r in Hfound.
    unfold Web3.getTransaction_request. eff_unfold. rewrite Hfound.
    reflexivity.
  - destruct (getTransaction_request_missing start txHash tr) as [e ->].
    { intros w. specialize (Hmissing 0%nat ltac:(lia) w).
      now rewrite Nat.add_0_r in Hmissing. }
    destruct remaining as [|remaining]; [lia|].
    rewrite (IH (S remaining) (S start)).
    + rewrite <- app_assoc. reflexivity.
    + lia.
    + intros j Hj w. specialize (Hmissing (S j) ltac:(lia) w).
      now rewrite Nat.add_succ_r in Hmissing.
    + now rewrite Nat.add_succ_r in Hfound.
Qed.

(** X7: when the node first answers with the transaction on poll [k], one
    of the ten allowed, [getTransaction] returns it after exactly [k + 1]
    requests, whatever the earlier polls threw or missed. *)
Lemma getTransaction_finds txHash v k tr :
  (k < Web3.numOfAttempts)%nat ->
  (forall j, (j < k)%nat ->
     forall w, eth_getTransaction j txHash <> Eff.Returned (Some w)) ->
  eth_getTransaction k txHash = Eff.Returned (Some v) ->
  Web3.getTransaction eth_getTransaction txHash tr
  = ((tr ++ repeat (Web3.GetTransaction txHash) (S k))%list, Eff.Returned v).
Proof.
  intros Hlt Hmissing Hfound. unfold Web3.getTransaction.
  now apply backOff_finds.
Qed.

(** C10: a [send] with a non-empty [options.additionalData] that succeeds
    hands the node exactly one payload: [0x], the converted encoded call
    without its prefix, then the converted additional data without its
    prefix.  The [data] of the returned transaction is that same payload,
    and so ends with the additional calldata.  When the conversion leaves
    the encoded call and the additional data as they are, as it does with
    what it has produced itself, the payload is the encoded call followed
    by the additional data.  Of the conversion it is assumed that it accepts
    and leaves unchanged a string put together from two of its results. *)
Theorem send_appends_additionalData config contract sendMethod options extra
    trace tx :
  (forall a b a' b',
     toBinary a = Eff.Returned a' ->
     toBinary b = Eff.Returned b' ->
     toBinary ("0x" ++ Web3.slice 2 a' ++ Web3.slice 2 b')
     = Eff.Returned ("0x" ++ Web3.slice 2 a' ++ Web3.slice 2 b')) ->
  Web3.additionalData options = Some extra ->
  extra <> "" ->
  Eff.run (send config contract sendMethod options) = (trace, Eff.Returned tx) ->
  exists source suffix,
    toBinary (Web3.encodeABI sendMethod) = Eff.Returned source
    /\ toBinary extra = Eff.Returned suffix
    /\ Web3.sent_payloads trace
       = ["0x" ++ Web3.slice 2 source ++ Web3.slice 2 suffix]
    /\ Web3.data tx = "0x" ++ Web3.slice 2 source ++ Web3.slice 2 suffix
    /\ Web3.endsWith (Web3.data tx) (Web3.slice 2 suffix) = true
    /\ (forall calldata hex,
          source = "0x" ++ calldata ->
          suffix = "0x" ++ hex ->
          Web3.data tx = source ++ hex
          /\ Web3.endsWith (Web3.data tx) hex = true)
    /\ (forall calldata hex,
          Web3.encodeABI sendMethod = "0x" ++ calldata ->
          extra = "0x" ++ hex ->
          source = Web3.encodeABI sendMethod ->
          suffix = extra ->
          Web3.data tx = Web3.encodeABI sendMethod ++ hex
          /\ Web3.endsWith (Web3.data tx) hex = true).
Proof.
  intros Hstable Hextra Hnonempty Hrun.
  unfold send, Web3.send, Eff.run in Hrun.
  apply bind_returned in Hrun as (account & tr1 & Hfrom & Hrun).
  apply getFrom_payloads in Hfrom. cbn in Hfrom.
  apply bind_returned in Hrun as (from & tr2 & Haddr & Hrun).
  apply lift_returned in Haddr as [_ ->].
  unfold Web3.truthy_string in Hrun. rewrite Hextra in Hrun.
  destruct (String.eqb_spec extra "") as [Heq|_]; [contradiction|].
  cbn [negb] in Hrun.
  apply bind_returned in Hrun as (suffix & tr3 & Hsuffix & Hrun).
  apply lift_returned in Hsuffix as [Hsuffix ->].
  apply bind_returned in Hrun as (encoded & tr4 & Hdata & Hrun).
  unfold Web3.getData, Eff.ret in Hdata. inversion Hdata; subst encoded tr4.
  clear Hdata.
  apply bind_returned in Hrun as (source & tr5 & Hsource & Hrun).
  apply lift_returned in Hsource as [Hsource ->].
  apply bind_returned in Hrun as ([] & tr6 & Hemit & Hrun).
  unfold Eff.emit in Hemit. inversion Hemit; subst tr6. clear Hemit.
  apply bind_returned in Hrun as (hashValue & tr7 & Hhash & Hrun).
  apply lift_returned in Hhash as [_ ->].
  apply bind_returned in Hrun as (found & tr8 & Hpoll & Hrun).
  apply getTransaction_payloads in Hpoll.
  apply bind_returned in Hrun as (word & tr9 & Hword & Hrun).
  apply lift_returned in Hword as [_ ->].
  apply bind_returned in Hrun as (binaryData & tr10 & Hbinary & Hrun).
  apply lift_returned in Hbinary as [Hbinary ->].
  apply bind_returned in Hrun as (to & tr11 & Hto & Hrun).
  apply lift_returned in Hto as [_ ->].
  unfold Eff.ret in Hrun. inversion Hrun; subst trace tx. clear Hrun.
  rewrite (Hstable _ _ _ _ Hsource Hsuffix) in Hbinary.
  inversion Hbinary; subst binaryData. clear Hbinary.
  assert (Hends : forall calldata hex,
             source = "0x" ++ calldata ->
             suffix = "0x" ++ hex ->
             "0x" ++ Web3.slice 2 source ++ Web3.slice 2 suffix = source ++ hex
             /\ Web3.endsWith
                  ("0x" ++ Web3.slice 2 source ++ Web3.slice 2 suffix) hex
                = true).
  { intros calldata hex -> ->. split; [reflexivity|].
    exact (endsWith_app ("0x" ++ calldata) hex). }
  exists source, suffix. cbn [Web3.data].
  split; [exact Hsource|]. split; [exact Hsuffix|].
  split.
  { rewrite Hpoll, sent_payloads_app, Hfrom. reflexivity. }
  split; [reflexivity|].
  split.
  { exact (endsWith_app ("0x" ++ Web3.slice 2 source) (Web3.slice 2 suffix)). }
  split; [exact Hends|].
  intros calldata hex Hencoded Hhex Hsame Hkept.
  rewrite <- Hsame. apply (Hends calldata hex); congruence.
Qed.

End Web3Properties.

Lemma getBaseFee_lookup_witness :
  let getBaseFee :=
    Fee.getBaseFee Samples.serving Samples.logOnly "RARIBLE_V2"
      Samples.noRuntimeNumber Samples.feeConfig in
  let url := "https://fee.example/config.json" in
  let missing := Js.Error "Fee config was not found for mainnet" in
  Eff.run (getBaseFee "mainnet" (Some "RARIBLE_V2"))
  = ([Fee.AxiosGet url; Fee.ConsoleError missing;
      Fee.HandleAxiosErrorResponse missing Fee.ETHEREUM_EXTERNAL_ERR],
     Eff.Thrown missing)
  /\ Eff.run (getBaseFee "testnet" (Some "CRYPTO_PUNK"))
     = ([Fee.AxiosGet url],
        Eff.Thrown (Js.Error "Unsupported fee type CRYPTO_PUNK"))
  /\ Eff.run (getBaseFee "testnet" (Some "RARIBLE_V2"))
     = ([Fee.AxiosGet url], Eff.Returned 250%float)
  /\ PrimFloat.eqb 250 250 = true.
Proof.
  pose proof (getBaseFee_lookup Samples.serving Samples.logOnly "RARIBLE_V2"
                Samples.noRuntimeNumber Samples.feeConfig) as lookup.
  cbv zeta. split; [|split; [|split]].
  - exact (proj1 (proj1 (lookup "mainnet" "RARIBLE_V2" Samples.feeTable eq_refl)
                    eq_refl eq_refl)).
  - exact (proj1 (proj1 (proj2 (lookup "testnet" "CRYPTO_PUNK" Samples.feeTable
                                  eq_refl))
                    Samples.testnetEntry eq_refl eq_refl)).
  - exact (proj1 (proj2 (proj2 (lookup "testnet" "RARIBLE_V2" Samples.feeTable
                                  eq_refl))
                    Samples.testnetEntry (Js.Number 250%float) eq_refl eq_refl)).
  - exact (proj2 (proj2 (proj2 (lookup "testnet" "RARIBLE_V2" Samples.feeTable
                                  eq_refl))
                    Samples.testnetEntry (Js.Number 250%float) eq_refl eq_refl)
             250%float eq_refl eq_refl).
Defined.

Lemma getBaseFee_transport_failure_witness :
  let logged :=
    [Fee.AxiosGet "https://fee.example/config.json";
     Fee.ConsoleError Samples.networkDown;
     Fee.HandleAxiosErrorResponse Samples.networkDown Fee.ETHEREUM_EXTERNAL_ERR] in
  Eff.run (Fee.getBaseFee Samples.unreachable Samples.raiseNetworkError
             "RARIBLE_V2" Samples.noRuntimeNumber Samples.feeConfig "testnet"
             None)
  = (logged, Eff.Thrown (Samples.networkError Samples.networkDown))
  /\ Eff.run (Fee.getBaseFee Samples.unreachable Samples.logOnly "RARIBLE_V2"
                Samples.noRuntimeNumber Samples.feeConfig "testnet" None)
     = (logged, Eff.Thrown Samples.networkDown).
Proof.
  split.
  - exact (proj2 (proj2 (getBaseFee_transport_failure Samples.unreachable
                           Samples.raiseNetworkError "RARIBLE_V2"
                           Samples.noRuntimeNumber Samples.feeConfig "testnet"
                           None Samples.networkDown eq_refl))
             (Samples.networkError Samples.networkDown) eq_refl).
  - exact (proj1 (proj2 (getBaseFee_transport_failure Samples.unreachable
                           Samples.logOnly "RARIBLE_V2" Samples.noRuntimeNumber
                           Samples.feeConfig "testnet" None Samples.networkDown
                           eq_refl)) eq_refl).
Defined.

(** With the logger's helper making a [NetworkError] of the axios error, a
    failed fetch reaches the caller as that [NetworkError], not as the error
    the fetch was rejected with. *)
Lemma getBaseFee_transport_failure_not_unchanged :
  exists thrown,
    Eff.run (Fee.getBaseFee Samples.unreachable Samples.raiseNetworkError
               "RARIBLE_V2" Samples.noRuntimeNumber Samples.feeConfig "testnet"
               None)
    = ([Fee.AxiosGet "https://fee.example/config.json";
        Fee.ConsoleError Samples.networkDown;
        Fee.HandleAxiosErrorResponse Samples.networkDown
          Fee.ETHEREUM_EXTERNAL_ERR],
       Eff.Thrown thrown)
    /\ Js.errName thrown = "NetworkError"
    /\ thrown <> Samples.networkDown.
Proof.
  exists (Samples.networkError Samples.networkDown).
  split; [reflexivity|]. split; [reflexivity | discriminate].
Qed.

Lemma getBaseFee_falsy_value_is_zero_witness :
  Eff.run (Fee.getBaseFee Samples.serving Samples.logOnly "RARIBLE_V2"
             Samples.noRuntimeNumber Samples.feeConfig "testnet" (Some "AUCTION"))
  = ([Fee.AxiosGet "https://fee.example/config.json"],
     Eff.Returned PrimFloat.zero).
Proof.
  exact (getBaseFee_falsy_value_is_zero Samples.serving Samples.logOnly
           "RARIBLE_V2" Samples.noRuntimeNumber Samples.feeConfig
           "testnet" "AUCTION" Samples.feeTable Samples.testnetEntry
           (Js.String "") eq_refl eq_refl eq_refl eq_refl).
Defined.

(** The lower-casing conversion leaves its own results alone. *)
Lemma lowerChar_hex c : Samples.isHexDigit c = true -> Samples.lowerChar c = c.
Proof.
  unfold Samples.isHexDigit, Samples.lowerChar.
  destruct (Nat.leb_spec 65 (nat_of_ascii c));
    destruct (Nat.leb_spec (nat_of_ascii c) 90); cbn [andb]; try reflexivity.
  destruct (Nat.leb_spec 48 (nat_of_ascii c));
    destruct (Nat.leb_spec (nat_of_ascii c) 57);
    destruct (Nat.leb_spec 97 (nat_of_ascii c));
    destruct (Nat.leb_spec (nat_of_ascii c) 102); cbn; try discriminate; lia.
Qed.

Lemma toLowerCase_hex s : Samples.allHex s = true -> Samples.toLowerCase s = s.
Proof.
  induction s as [|c s IH]; cbn; [reflexivity|].
  intros Hhex. apply andb_true_iff in Hhex as [Hc Hs].
  now rewrite (lowerChar_hex c Hc), (IH Hs).
Qed.

Lemma allHex_app a b :
  Samples.allHex a = true -> Samples.allHex b = true ->
  Samples.allHex (a ++ b) = true.
Proof.
  induction a as [|c a IH]; cbn; [auto|].
  intros Ha Hb. apply andb_true_iff in Ha as [Hc Ha].
  now rewrite Hc, (IH Ha Hb).
Qed.

Lemma lowerHex_returned s s' :
  Samples.lowerHex s = Eff.Returned s' ->
  exists hex, s' = "0x" ++ hex /\ Samples.allHex hex = true.
Proof.
  unfold Samples.lowerHex.
  destruct (Samples.allHex (Samples.toLowerCase (Samples.strip0x s))) eqn:Hhex;
    [|discriminate].
  intros H. injection H as <-.
  eexists. split; [reflexivity | exact Hhex].
Qed.

Lemma lowerHex_stable a b a' b' :
  Samples.lowerHex a = Eff.Returned a' ->
  Samples.lowerHex b = Eff.Returned b' ->
  Samples.lowerHex ("0x" ++ Web3.slice 2 a' ++ Web3.slice 2 b')
  = Eff.Returned ("0x" ++ Web3.slice 2 a' ++ Web3.slice 2 b').
Proof.
  intros Ha Hb.
  apply lowerHex_returned in Ha as (ha & -> & Hha).
  apply lowerHex_returned in Hb as (hb & -> & Hhb).
  change (Web3.slice 2 ("0x" ++ ha)) with ha.
  change (Web3.slice 2 ("0x" ++ hb)) with hb.
  unfold Samples.lowerHex.
  change (Samples.strip0x ("0x" ++ ha ++ hb)) with (ha ++ hb).
  pose proof (allHex_app ha hb Hha Hhb) as Hboth.
  now rewrite (toLowerCase_hex _ Hboth), Hboth.
Qed.

Lemma send_appends_additionalData_witness :
  let run options :=
    Eff.run (Web3.send Samples.accounts Samples.submitted
               Samples.pollTransaction Samples.unchecked Samples.lowerHex
               Samples.unchecked Samples.printNumber Samples.walletConfig
               Samples.exchangeContract Samples.matchOrders options) in
  (snd (run Samples.sendOptions) = Eff.Returned Samples.sentTransaction
   /\ Web3.sent_payloads (fst (run Samples.sendOptions)) = [Samples.sentData]
   /\ Web3.data Samples.sentTransaction
      = Web3.encodeABI Samples.matchOrders ++ Web3.slice 2 Samples.fillCalldata
   /\ Web3.endsWith (Web3.data Samples.sentTransaction)
        (Web3.slice 2 Samples.fillCalldata) = true)
  /\ (exists tx,
        snd (run Samples.upperOptions) = Eff.Returned tx
        /\ Web3.sent_payloads (fst (run Samples.upperOptions))
           = ["0xe99a3f80aa55abcdef"]
        /\ Web3.data tx = "0xe99a3f80aa55abcdef"
        /\ Web3.endsWith (Web3.data tx) "abcdef" = true).
Proof.
  cbv zeta. split.
  - split; [reflexivity|].
    destruct (send_appends_additionalData Samples.accounts Samples.submitted
                Samples.pollTransaction Samples.unchecked Samples.lowerHex
                Samples.unchecked Samples.printNumber Samples.walletConfig
                Samples.exchangeContract Samples.matchOrders Samples.sendOptions
                Samples.fillCalldata
                (fst (Eff.run (Web3.send Samples.accounts Samples.submitted
                   Samples.pollTransaction Samples.unchecked Samples.lowerHex
                   Samples.unchecked Samples.printNumber Samples.walletConfig
                   Samples.exchangeContract Samples.matchOrders
                   Samples.sendOptions)))
                Samples.sentTransaction
                lowerHex_stable eq_refl
                (fun H => eq_ind Samples.fillCalldata
                            (fun s => match s with
                                      | EmptyString => False
                                      | String _ _ => True
                                      end) I "" H)
                eq_refl)
      as (source & suffix & Hsource & Hsuffix & Hsent & Hdata & Hends & _ & Hkept).
    inversion Hsource; subst source. inversion Hsuffix; subst suffix.
    split; [exact Hsent|].
    exact (Hkept _ _ eq_refl eq_refl eq_refl eq_refl).
  - eexists. split; [reflexivity|].
    destruct (send_appends_additionalData Samples.accounts Samples.submitted
                Samples.pollTransaction Samples.unchecked Samples.lowerHex
                Samples.unchecked Samples.printNumber Samples.walletConfig
                Samples.exchangeContract Samples.matchOrders
                Samples.upperOptions "0xABCDEF" _ _
                lowerHex_stable eq_refl
                (fun H => eq_ind "0xABCDEF"
                            (fun s => match s with
                                      | EmptyString => False
                                      | String _ _ => True
                                      end) I "" H)
                eq_refl)
      as (source & suffix & Hsource & Hsuffix & Hsent & Hdata & Hends & _).
    inversion Hsource; subst source. inversion Hsuffix; subst suffix.
    split; [exact Hsent|]. split; [exact Hdata | exact Hends].
Defined.

(** ** Basis-point arithmetic *)

Lemma exactShare_fraction (a f : Z) :
  (Amount.exactShare a f == (a * f) # 10000)%Q.
Proof.
  unfold Amount.exactShare, Qeq, Qdiv, Qinv, Qmult, inject_Z. cbn. ring.
Qed.

(** C3: for every amount, the non-negative ones in particular,
    [computeFee a f] is the floor of the exact share [a * f / 10000]: it is
    the integer part of that rational, lies at most one below it, is 0 for a
    zero fee, and is not round-half-to-even (at 3 units and 5000 basis points
    the share is 1.5, the fee 1, the banker's rounding 2). *)
Theorem computeFee_is_floor (a f : Z) :
  Amount.computeFee a f = Qfloor (Amount.exactShare a f)
  /\ (inject_Z (Amount.computeFee a f) <= Amount.exactShare a f)%Q
  /\ (Amount.exactShare a f < inject_Z (Amount.computeFee a f + 1))%Q
  /\ Amount.computeFee a 0 = 0
  /\ (Amount.computeFee 3 5000 = 1
      /\ Amount.bankersRound (Amount.exactShare 3 5000) = 2).
Proof.
  assert (Hfloor : Amount.computeFee a f = Qfloor (Amount.exactShare a f)).
  { rewrite (Qfloor_comp _ _ (exactShare_fraction a f)). reflexivity. }
  split; [exact Hfloor|]. rewrite Hfloor.
  split; [apply Qfloor_le|]. split; [apply Qlt_floor|].
  split; [|split; reflexivity].
  unfold Amount.computeFee. now rewrite Z.mul_0_r.
Qed.

(** The fee scenario of the specification: 250 basis points of
    10000000000. *)
Example computeFee_scenario : Amount.computeFee 10000000000 250 = 250000000.
Proof. reflexivity. Qed.

(** ** Dispatcher *)

Section DispatcherProperties.

Import Dispatcher.

Variable describe : ErrorKind -> string.

(** C1: a fill amount that is not positive, or exceeds the remaining
    quantity, makes [fulfill] fail with [InsufficientFillAmount] with no
    network call made. *)
Theorem fulfill_rejects_amount config order amount originFees :
  amount <= 0 \/ amount > Order.remaining order ->
  Eff.run (fulfill describe config order amount originFees)
  = ([], Eff.Thrown {| kind := InsufficientFillAmount;
                       message := describe InsufficientFillAmount |}).
Proof.
  intros Hbad. unfold fulfill, Eff.run.
  replace ((0 <? amount) && (amount <=? Order.remaining order)) with false.
  - reflexivity.
  - symmetry. apply andb_false_iff.
    destruct Hbad; [left; apply Z.ltb_ge | right; apply Z.leb_gt]; lia.
Qed.



End DispatcherProperties.

Lemma fulfill_rejects_amount_witness :
  Eff.run (Dispatcher.fulfill Samples.wording Samples.dispatcher
             Samples.restrictedOrder 10000000001 [])
  = ([], Eff.Thrown {| Dispatcher.kind := Dispatcher.InsufficientFillAmount;
                       Dispatcher.message := "fulfilment failed" |}).
Proof.
  apply (fulfill_rejects_amount Samples.wording Samples.dispatcher
           Samples.restrictedOrder 10000000001 []).
  right. unfold Order.remaining. cbn. lia.
Defined.



(** ** Seaport origin fees *)

Section SeaportProperties.

Import Seaport.

Lemma totalPaid_app (a b : list ConsiderationItem) :
  totalPaid (a ++ b) = totalPaid a + totalPaid b.
Proof.
  unfold totalPaid.
  induction a as [|item a IH]; cbn; [reflexivity | rewrite IH; lia].
Qed.

Lemma received_app who (a b : list ConsiderationItem) :
  received who (a ++ b) = received who a + received who b.
Proof.
  unfold received.
  induction a as [|item a IH]; cbn; [reflexivity|].
  destruct (String.eqb (recipient item) who); rewrite IH; lia.
Qed.

Lemma totalPaid_originFeeItems currency paid originFees :
  totalPaid (originFeeItems currency paid originFees)
  = originFeeTotal paid originFees.
Proof.
  unfold totalPaid, originFeeItems, originFeeTotal.
  induction originFees as [|fee fees IH]; cbn; [reflexivity|].
  rewrite IH. reflexivity.
Qed.

Lemma computeFee_nonneg paid bps : 0 <= paid -> 0 <= bps ->
  0 <= Amount.computeFee paid bps.
Proof.
  intros Hpaid Hbps. unfold Amount.computeFee.
  apply Z.div_pos; [apply Z.mul_nonneg_nonneg; assumption | lia].
Qed.

Lemma received_originFeeItems_nonneg who currency paid originFees :
  0 <= paid ->
  Forall (fun fee => 0 <= OriginFee.value fee) originFees ->
  0 <= received who (originFeeItems currency paid originFees).
Proof.
  intros Hpaid Hfees. unfold received, originFeeItems.
  induction Hfees as [|fee fees Hfee _ IH]; cbn; [lia|].
  pose proof (computeFee_nonneg paid _ Hpaid Hfee).
  destruct (String.eqb (OriginFee.account fee) who); lia.
Qed.

(** C4: a Seaport fulfilment charges each origin fee entry exactly
    [paid * bps / 10000], as an item of its own after the order's
    consideration, which stays as it was: the fulfiller pays the order's
    consideration plus the origin fees, and no recipient of the order's
    consideration, the seller included, receives less.  For the WETH order of
    the test (97500 to the seller, 2500 to the marketplace, 100000 in all)
    with one origin fee of 1000 basis points, the fee recipient receives
    10000 and the buyer pays 110000. *)
Theorem origin_fees_on_top consideration currency paid originFees who :
  0 <= paid ->
  Forall (fun fee => 0 <= OriginFee.value fee) originFees ->
  let items := fulfilledConsideration consideration currency paid originFees in
  map amount (originFeeItems currency paid originFees)
  = map (fun fee => paid * OriginFee.value fee / 10000) originFees
  /\ firstn (List.length consideration) items = consideration
  /\ skipn (List.length consideration) items
     = originFeeItems currency paid originFees
  /\ totalPaid items
     = totalPaid consideration + originFeeTotal paid originFees
  /\ received who consideration <= received who items
  /\ (forall base,
        considerationOf Samples.seller (getOpenseaWethTakeData 100000)
        = Some base ->
        let filled := fulfilledConsideration base weth 100000 [Samples.tenPercent] in
        totalPaid base = 100000
        /\ received Samples.originFeeAddress filled = 10000
        /\ totalPaid filled = 110000
        /\ received Samples.seller filled = received Samples.seller base).
Proof.
  intros Hpaid Hfees items. subst items. unfold fulfilledConsideration.
  split; [|split; [|split; [|split; [|split]]]].
  - unfold originFeeItems. rewrite map_map. reflexivity.
  - rewrite firstn_app, Nat.sub_diag, firstn_all. cbn. apply app_nil_r.
  - rewrite skipn_app, Nat.sub_diag, skipn_all. reflexivity.
  - rewrite totalPaid_app, totalPaid_originFeeItems. reflexivity.
  - rewrite received_app.
    pose proof (received_originFeeItems_nonneg who currency paid originFees
                  Hpaid Hfees). lia.
  - intros base Hbase. vm_compute in Hbase. inversion Hbase; subst base.
    repeat split.
Qed.

End SeaportProperties.

Lemma origin_fees_on_top_witness :
  let base :=
    [ {| Seaport.token := Seaport.weth; Seaport.amount := 97500;
         Seaport.recipient := Samples.seller |};
      {| Seaport.token := Seaport.weth; Seaport.amount := 2500;
         Seaport.recipient := Seaport.openseaFeeRecipient |} ] in
  let filled :=
    Seaport.fulfilledConsideration base Seaport.weth 100000 [Samples.tenPercent] in
  Seaport.considerationOf Samples.seller (Seaport.getOpenseaWethTakeData 100000)
  = Some base
  /\ map Seaport.amount (skipn 2 filled) = [10000]
  /\ Seaport.totalPaid filled = 100000 + 10000
  /\ Seaport.received Samples.seller base
     <= Seaport.received Samples.seller filled
  /\ Seaport.received Samples.originFeeAddress filled = 10000
  /\ Seaport.totalPaid filled = 110000.
Proof.
  cbv zeta.
  pose proof (origin_fees_on_top
                [ {| Seaport.token := Seaport.weth; Seaport.amount := 97500;
                     Seaport.recipient := Samples.seller |};
                  {| Seaport.token := Seaport.weth; Seaport.amount := 2500;
                     Seaport.recipient := Seaport.openseaFeeRecipient |} ]
                Seaport.weth 100000 [Samples.tenPercent] Samples.seller
                ltac:(lia)
                (Forall_cons Samples.tenPercent
                   (ltac:(cbn; lia) : 0 <= OriginFee.value Samples.tenPercent)
                   (Forall_nil _)))
    as (Hfees & _ & _ & Htotal & Hseller & Hscenario).
  split; [reflexivity|].
  split; [exact Hfees|].
  split; [exact Htotal|]. split; [exact Hseller|].
  destruct (Hscenario _ eq_refl) as (_ & Hfee & Hbuyer & _).
  split; [exact Hfee | exact Hbuyer].
Defined.

(** The balances the WETH test expects, 18 decimals: the fee recipient gains
    0.00000000000001 and the buyer spends 0.00000000000011. *)
Example weth_test_balances :
  (Amount.toDisplay 10000 18 == 1 # 100000000000000)%Q
  /\ (Amount.toDisplay 110000 18 == 11 # 100000000000000)%Q.
Proof. split; reflexivity. Qed.

(** * Further properties of the embedded code *)

(** ** Fee resolver: edges of the table *)

Section FeeEdgeProperties.

Variable axios_get : string -> Eff.outcome Js.error Js.value.
Variable handleAxiosErrorResponse :
  Js.error -> Fee.NetworkErrorCode -> Eff.outcome Js.error unit.
Variable CURRENT_ORDER_TYPE_VERSION : string.
Variable to_number_runtime : Js.value -> float.

Let getBaseFee :=
  Fee.getBaseFee axios_get handleAxiosErrorResponse CURRENT_ORDER_TYPE_VERSION
    to_number_runtime.

(** The fetch block hands on an entry only when the body is an object that
    holds a truthy entry for the network; it has then made the GET and
    logged nothing. *)
Lemma fetchEnvFeeConfig_returned config env tr tr' entry :
  Fee.fetchEnvFeeConfig axios_get handleAxiosErrorResponse config env tr
  = (tr', Eff.Returned entry) ->
  exists table,
    axios_get (Fee.feeConfigUrl config) = Eff.Returned (Js.Object table)
    /\ Js.own_property table env = Some entry
    /\ Js.truthy entry = true
    /\ tr' = (tr ++ [Fee.AxiosGet (Fee.feeConfigUrl config)])%list.
Proof.
  unfold Fee.fetchEnvFeeConfig. eff_unfold.
  destruct (axios_get (Fee.feeConfigUrl config)) as [data|e]; cbn.
  - destruct data as [| |b|n|text|items|table]; cbn;
      try (destruct (handleAxiosErrorResponse _ _); discriminate).
    destruct (Js.own_property table env) as [found|] eqn:Hown; cbn.
    + destruct (Js.truthy found) eqn:Htruthy; cbn.
      * intros H. inversion H; subst. now exists table.
      * destruct (handleAxiosErrorResponse _ _); discriminate.
    + destruct (handleAxiosErrorResponse _ _); discriminate.
  - destruct (handleAxiosErrorResponse _ _); discriminate.
Qed.

(** X2: a fee that [getBaseFee] returns always comes from the table: the
    body was an object, its entry for the network an object holding the fee
    type, the fee is [Number(configured || 0)], and the run made the GET and
    wrote nothing to the console or the logger. *)
Theorem getBaseFee_returned_from_table config env type trace fee :
  Eff.run (getBaseFee config env type) = (trace, Eff.Returned fee) ->
  let feeType := match type with
                 | Some given => given
                 | None => CURRENT_ORDER_TYPE_VERSION
                 end in
  exists table fields configured,
    axios_get (Fee.feeConfigUrl config) = Eff.Returned (Js.Object table)
    /\ Js.own_property table env = Some (Js.Object fields)
    /\ Js.own_property fields feeType = Some configured
    /\ fee = Js.to_number to_number_runtime
               (Js.or configured (Js.Number PrimFloat.zero))
    /\ trace = [Fee.AxiosGet (Fee.feeConfigUrl config)].
Proof.
  intros Hrun feeType. unfold getBaseFee, Fee.getBaseFee, Eff.run in Hrun.
  fold feeType in Hrun. clearbody feeType. cbv zeta in Hrun.
  apply bind_returned in Hrun as (entry & tr1 & Hfetch & Hrun).
  apply fetchEnvFeeConfig_returned in Hfetch as (table & Hget & Hown & _ & ->).
  apply bind_returned in Hrun as (present & tr2 & Hhas & Hrun).
  apply lift_returned in Hhas as [Hhas ->].
  destruct entry as [| |b|n|text|items|fields]; try discriminate.
  - cbn in Hhas. inversion Hhas; subst present. discriminate.
  - cbn in Hhas.
    destruct (Js.own_property fields feeType) as [configured|] eqn:Htype;
      inversion Hhas; subst present; [|discriminate].
    cbn in Hrun. rewrite Htype in Hrun. cbn in Hrun.
    unfold Eff.bind, Eff.lift, Eff.ret in Hrun. inversion Hrun; subst.
    now exists table, fields, configured.
Qed.

(** X3: whenever [data[env]] is falsy (the network is absent, its entry is
    [null], 0, [false] or the empty string, or the body is not an object at
    all) the call fails with ["Fee config was not found for <env>"], which
    is written to the console and the logger before it is thrown. *)
Theorem getBaseFee_falsy_entry_not_found config env type data entry :
  axios_get (Fee.feeConfigUrl config) = Eff.Returned data ->
  Js.get data env = Eff.Returned entry ->
  Js.truthy entry = false ->
  let notFound := Js.Error ("Fee config was not found for " ++ env) in
  handleAxiosErrorResponse notFound Fee.ETHEREUM_EXTERNAL_ERR = Eff.Returned tt ->
  Eff.run (getBaseFee config env type)
  = ([Fee.AxiosGet (Fee.feeConfigUrl config); Fee.ConsoleError notFound;
      Fee.HandleAxiosErrorResponse notFound Fee.ETHEREUM_EXTERNAL_ERR],
     Eff.Thrown notFound).
Proof.
  intros Hget Hentry Hfalsy notFound Hlog. subst notFound.
  unfold getBaseFee, Fee.getBaseFee, Fee.fetchEnvFeeConfig. eff_unfold.
  rewrite Hget. cbn. rewrite Hentry. cbn. rewrite Hfalsy.
  cbn in Hlog |- *. rewrite Hlog. reflexivity.
Qed.

(** X4: a network entry that is a truthy primitive (a non-zero number,
    [true], a non-empty string) makes the [in] test throw a TypeError.  That
    happens after the [try] block, so the error reaches the caller without
    having been written to the console or the logger. *)
Theorem getBaseFee_primitive_entry_type_error config env type table entry :
  axios_get (Fee.feeConfigUrl config) = Eff.Returned (Js.Object table) ->
  Js.own_property table env = Some entry ->
  Js.truthy entry = true ->
  match entry with
  | Js.Object _ | Js.Array _ => False
  | _ => True
  end ->
  exists e,
    Eff.run (getBaseFee config env (Some type))
    = ([Fee.AxiosGet (Fee.feeConfigUrl config)], Eff.Thrown e)
    /\ Js.errName e = "TypeError".
Proof.
  intros Hget Hown Htruthy Hprimitive.
  unfold getBaseFee, Fee.getBaseFee, Eff.run, Eff.bind.
  rewrite (fetchEnvFeeConfig_found axios_get handleAxiosErrorResponse
             config env table entry [] Hget Hown Htruthy).
  destruct entry; try contradiction; try discriminate;
    cbn; eexists; split; reflexivity.
Qed.

(** X5: a body that is [null] (or [undefined]) makes the property read
    throw a TypeError inside the [try] block: it is written to the console
    and the logger, then thrown. *)
Theorem getBaseFee_nullish_body config env type data :
  axios_get (Fee.feeConfigUrl config) = Eff.Returned data ->
  data = Js.Null \/ data = Js.Undefined ->
  exists e,
    Js.errName e = "TypeError"
    /\ (handleAxiosErrorResponse e Fee.ETHEREUM_EXTERNAL_ERR = Eff.Returned tt ->
        Eff.run (getBaseFee config env type)
        = ([Fee.AxiosGet (Fee.feeConfigUrl config); Fee.ConsoleError e;
            Fee.HandleAxiosErrorResponse e Fee.ETHEREUM_EXTERNAL_ERR],
           Eff.Thrown e)).
Proof.
  intros Hget Hnullish.
  exists (Js.TypeError ("Cannot read properties of nullish value (reading '"
                        ++ env ++ "')")).
  split; [reflexivity|]. intros Hlog.
  unfold getBaseFee, Fee.getBaseFee, Fee.fetchEnvFeeConfig. eff_unfold.
  rewrite Hget. destruct Hnullish as [-> | ->]; cbn in Hlog |- *;
    rewrite Hlog; reflexivity.
Qed.

(** X6: when the configured value is a number, the fee returned is never
    NaN: a configured NaN counts as falsy and gives 0, like a zero. *)
Theorem getBaseFee_number_never_nan config env type table fields n :
  axios_get (Fee.feeConfigUrl config) = Eff.Returned (Js.Object table) ->
  Js.own_property table env = Some (Js.Object fields) ->
  Js.own_property fields type = Some (Js.Number n) ->
  exists fee,
    Eff.run (getBaseFee config env (Some type))
    = ([Fee.AxiosGet (Fee.feeConfigUrl config)], Eff.Returned fee)
    /\ PrimFloat.is_nan fee = false
    /\ (PrimFloat.is_nan n = true -> fee = PrimFloat.zero).
Proof.
  intros Hget Henv Htype.
  exists (Js.to_number to_number_runtime
            (Js.or (Js.Number n) (Js.Number PrimFloat.zero))).
  split.
  - unfold getBaseFee, Fee.getBaseFee, Eff.run, Eff.bind.
    rewrite (fetchEnvFeeConfig_found axios_get handleAxiosErrorResponse
               config env table _ [] Hget Henv eq_refl).
    cbn. rewrite Htype. reflexivity.
  - unfold Js.or, Js.truthy.
    destruct (PrimFloat.is_nan n) eqn:Hnan.
    + rewrite orb_true_r. cbn. split; reflexivity.
    + rewrite orb_false_r.
      destruct (PrimFloat.eqb n PrimFloat.zero); cbn;
        (split; [first [exact Hnan | reflexivity] | discriminate]).
Qed.

End FeeEdgeProperties.

(** ** Web3 function call: what reaches the node *)

Lemma bind_cases {Ev E A B} (m : Eff.M Ev E A) (k : A -> Eff.M Ev E B)
    tr tr' o :
  Eff.bind m k tr = (tr', o) ->
  (exists a tr1, m tr = (tr1, Eff.Returned a) /\ k a tr1 = (tr', o))
  \/ (exists e, m tr = (tr', Eff.Thrown e) /\ o = Eff.Thrown e).
Proof.
  unfold Eff.bind. destruct (m tr) as [tr1 [a|e]]; intros H.
  - left. now exists a, tr1.
  - right. inversion H; subst. now exists e.
Qed.

Lemma submissions_app (a b : list Web3.event) :
  Web3Provider.submissions (a ++ b)
  = (Web3Provider.submissions a ++ Web3Provider.submissions b)%list.
Proof.
  induction a as [|ev a IH]; cbn; [reflexivity|].
  destruct ev; cbn; now rewrite IH.
Qed.

Lemma polls_app (a b : list Web3.event) :
  Web3Provider.polls (a ++ b)
  = (Web3Provider.polls a ++ Web3Provider.polls b)%list.
Proof.
  induction a as [|ev a IH]; cbn; [reflexivity|].
  destruct ev; cbn; now rewrite IH.
Qed.

Lemma submissions_repeat_poll txHash k :
  Web3Provider.submissions (repeat (Web3.GetTransaction txHash) k) = [].
Proof. induction k as [|k IH]; cbn; [reflexivity | exact IH]. Qed.

Lemma polls_repeat_poll txHash k :
  Web3Provider.polls (repeat (Web3.GetTransaction txHash) k) = repeat txHash k.
Proof. induction k as [|k IH]; cbn; [reflexivity | now rewrite IH]. Qed.

Section Web3TraceProperties.

Variable eth_getAccounts : Eff.outcome Js.error (list string).
Variable eth_sendTransaction : Web3.TransactionConfig -> Web3.Promises.
Variable eth_getTransaction :
  nat -> string -> Eff.outcome Js.error (option Web3.Transaction).
Variable toAddress : string -> Eff.outcome Js.error string.
Variable toBinary : string -> Eff.outcome Js.error string.
Variable toWord : string -> Eff.outcome Js.error string.
Variable number_toString : float -> string.

Let send :=
  Web3.send eth_getAccounts eth_sendTransaction eth_getTransaction
    toAddress toBinary toWord number_toString.

(** Looking up the sender asks the wallet for its accounts at most once,
    and asks nothing else. *)
Lemma getFrom_trace from tr tr' o :
  Web3.getFrom eth_getAccounts from tr = (tr', o) ->
  tr' = tr \/ tr' = (tr ++ [Web3.GetAccounts])%list.
Proof.
  assert (Hfirst : forall tr tr' o,
             Web3.firstAccount eth_getAccounts tr = (tr', o) ->
             tr' = (tr ++ [Web3.GetAccounts])%list).
  { clear. intros tr tr' o. unfold Web3.firstAccount. eff_unfold.
    destruct eth_getAccounts as [[|first rest]|e]; cbn;
      [| destruct (String.eqb first "") |]; intros H; now inversion H. }
  unfold Web3.getFrom. destruct from as [f|]; [|right; eauto].
  destruct (negb (String.eqb f "")); [|right; eauto].
  unfold Eff.ret. intros H. inversion H. now left.
Qed.

(** The sender found does not depend on what was requested before. *)
Lemma getFrom_outcome from tr tr' o :
  Web3.getFrom eth_getAccounts from tr = (tr', o) ->
  snd (Web3.getFrom eth_getAccounts from []) = o.
Proof.
  unfold Web3.getFrom, Web3.firstAccount. eff_unfold.
  destruct from as [f|]; [destruct (negb (String.eqb f ""))|];
    cbn; destruct eth_getAccounts as [[|first rest]|e]; cbn;
    try destruct (String.eqb first ""); intros H; now inversion H.
Qed.

(** The retry loop polls at least once and at most [attempts] times, for
    the same hash, and requests nothing else. *)
Lemma backOff_trace txHash attempts :
  forall start tr tr' o,
    Web3.backOff (S attempts) start
      (fun poll => Web3.getTransaction_request eth_getTransaction poll txHash) tr
    = (tr', o) ->
    exists k,
      (1 <= k <= S attempts)%nat
      /\ tr' = (tr ++ repeat (Web3.GetTransaction txHash) k)%list.
Proof.
  induction attempts as [|attempts IH]; intros start tr tr' o;
    cbn [Web3.backOff]; unfold Eff.try_catch;
    destruct (Web3.getTransaction_request eth_getTransaction start txHash tr)
      as [tr1 outcome] eqn:Hrequest;
    assert (Htr1 : tr1 = (tr ++ [Web3.GetTransaction txHash])%list)
      by (revert Hrequest; unfold Web3.getTransaction_request; eff_unfold;
          destruct (eth_getTransaction start txHash) as [[v|]|e];
          intros H; now inversion H);
    subst tr1; destruct outcome as [found|e].
  - intros H. inversion H; subst. exists 1%nat. split; [lia | reflexivity].
  - unfold Eff.throw. intros H. inversion H; subst. exists 1%nat.
    split; [lia | reflexivity].
  - intros H. inversion H; subst. exists 1%nat. split; [lia | reflexivity].
  - intros H. apply IH in H as (k & Hk & ->). exists (S k).
    split; [lia|]. rewrite <- app_assoc. reflexivity.
Qed.

Lemma getTransaction_trace txHash tr tr' o :
  Web3.getTransaction eth_getTransaction txHash tr = (tr', o) ->
  exists k,
    (1 <= k <= Web3.numOfAttempts)%nat
    /\ tr' = (tr ++ repeat (Web3.GetTransaction txHash) k)%list.
Proof. unfold Web3.getTransaction. apply backOff_trace. Qed.

Lemma lift_outcome {Ev E A} (o o' : Eff.outcome E A) (tr tr' : list Ev) :
  Eff.lift o tr = (tr', o') -> o = o' /\ tr' = tr.
Proof. unfold Eff.lift. intros H. now inversion H. Qed.

Lemma emit_outcome {Ev E} (ev : Ev) (tr tr' : list Ev)
    (o : Eff.outcome E unit) :
  Eff.emit ev tr = (tr', o) -> tr' = (tr ++ [ev])%list /\ o = Eff.Returned tt.
Proof. unfold Eff.emit. intros H. now inversion H. Qed.

Ltac shape :=
  repeat match goal with
         | |- _ /\ _ => split
         end;
  try solve [ cbn [app repeat]; rewrite <- ?app_assoc, ?app_nil_r; reflexivity
            | auto
            | left; reflexivity
            | right; left; eexists; reflexivity
            | right; right; eexists; reflexivity
            | unfold Web3.numOfAttempts in *; lia
            | discriminate
            | intros ? ?; discriminate
            | intros; split; [discriminate | lia]
            | cbn; intros ? ?; discriminate ].

Ltac resolve_hash Hhash :=
  lazymatch type of Hhash with
  | ?known = _ =>
      lazymatch goal with
      | |- match ?scrutinee with _ => _ end => change scrutinee with known
      end
  end;
  rewrite Hhash.

Ltac no_submission :=
  match goal with
  | Hfrom : ?t = [] \/ ?t = [Web3.GetAccounts] |- _ =>
      exists t, (@nil Web3.event), 0%nat, ""; shape
  end.

Ltac one_submission k h :=
  match goal with
  | Hfrom : ?t = [] \/ ?t = [Web3.GetAccounts] |- context [(?t ++ [?ev])%list] =>
      exists t, [ev], k, h; shape
  end.

(** The anatomy of a run of [send], whatever its outcome: at most one
    request for the accounts, then at most one submission, then the polls
    for the hash that submission resolved to.  A rejected hash ends the run
    at once; a resolved one leads to the polling, whose failure is the
    failure of the call. *)
Lemma send_trace_shape config contract sendMethod options trace o :
  Eff.run (send config contract sendMethod options) = (trace, o) ->
  exists pre sub k txHash,
    trace = (pre ++ sub ++ repeat (Web3.GetTransaction txHash) k)%list
    /\ (pre = [] \/ pre = [Web3.GetAccounts])
    /\ (sub = []
        \/ (exists request, sub = [Web3.SendTransaction request])
        \/ (exists sendOptions,
              sub = [Web3.ContractMethodSend (Web3.encodeABI sendMethod)
                       sendOptions]))
    /\ (k <= Web3.numOfAttempts)%nat
    /\ (sub = [] -> k = 0%nat)
    /\ (forall tx, o = Eff.Returned tx -> sub <> [] /\ (1 <= k)%nat)
    /\ (forall s,
          Web3Provider.submissions sub = [s] ->
          match Web3.hash (Web3Provider.promises_of eth_sendTransaction
                             sendMethod s) with
          | Eff.Thrown e => o = Eff.Thrown e /\ k = 0%nat
          | Eff.Returned h =>
              txHash = h
              /\ exists polled,
                   Web3.getTransaction eth_getTransaction h (pre ++ sub)%list
                   = (trace, polled)
                   /\ forall e, polled = Eff.Thrown e -> o = Eff.Thrown e
          end).
Proof.
  intros H. unfold send, Web3.send, Eff.run in H.
  apply bind_cases in H as [(account & pre & Hfrom & H) | (e & Hfrom & ->)];
    apply getFrom_trace in Hfrom; cbn [app] in Hfrom.
  2: { no_submission. }
  apply bind_cases in H as [(from & tr2 & Hstep & H) | (e & Hstep & ->)];
    apply lift_outcome in Hstep as [_ ->].
  2: { no_submission. }
  destruct (Web3.truthy_string (Web3.additionalData options)).
  - apply bind_cases in H as [(extra & tr3 & Hstep & H) | (e & Hstep & ->)];
      apply lift_outcome in Hstep as [_ ->].
    2: { no_submission. }
    apply bind_cases in H as [(encoded & tr4 & Hstep & H) | (e & Hstep & ->)];
      unfold Web3.getData, Eff.ret in Hstep; inversion Hstep; subst encoded tr4.
    apply bind_cases in H as [(source & tr5 & Hstep' & H) | (e & Hstep' & ->)];
      apply lift_outcome in Hstep' as [_ ->].
    2: { no_submission. }
    apply bind_cases in H as [([] & tr6 & Hemit & H) | (e & Hemit & ->)];
      apply emit_outcome in Hemit as [-> Hemit]; [clear Hemit | discriminate].
    apply bind_cases in H as [(hashValue & tr7 & Hhash & H) | (e & Hhash & ->)];
      apply lift_outcome in Hhash as [Hhash ->].
    2: { one_submission 0%nat "".
         intros s Hs. cbn [Web3Provider.submissions] in Hs.
         injection Hs as <-. cbn [Web3Provider.promises_of]. resolve_hash Hhash.
         now split. }
    apply bind_cases in H as [(found & tr8 & Hpoll & H) | (e & Hpoll & ->)];
      pose proof Hpoll as Hpolled;
      apply getTransaction_trace in Hpoll as (k & Hk & Htr8);
      rewrite Htr8 in *; clear Htr8.
    2: { one_submission k hashValue.
         intros s Hs. cbn [Web3Provider.submissions] in Hs.
         injection Hs as <-. cbn [Web3Provider.promises_of]. resolve_hash Hhash.
         split; [reflexivity|]. eexists. split; [exact Hpolled|].
         intros e' He'. now inversion He'. }
    match type of H with
    | _ ?before = _ => assert (Hsame : trace = before)
    end.
    { revert H. eff_unfold.
      destruct (toWord hashValue); [|intros H; now inversion H].
      destruct (toBinary _); [|intros H; now inversion H].
      destruct (toAddress (Web3.address contract)); intros H; now inversion H. }
    rewrite Hsame. one_submission k hashValue.
    intros s Hs. cbn [Web3Provider.submissions] in Hs.
         injection Hs as <-. cbn [Web3Provider.promises_of]. resolve_hash Hhash.
    split; [reflexivity|]. eexists. split; [exact Hpolled|]. discriminate.
  - apply bind_cases in H as [([] & tr6 & Hemit & H) | (e & Hemit & ->)];
      apply emit_outcome in Hemit as [-> Hemit]; [clear Hemit | discriminate].
    apply bind_cases in H as [(hashValue & tr7 & Hhash & H) | (e & Hhash & ->)];
      apply lift_outcome in Hhash as [Hhash ->].
    2: { one_submission 0%nat "".
         intros s Hs. cbn [Web3Provider.submissions] in Hs.
         injection Hs as <-. cbn [Web3Provider.promises_of]. resolve_hash Hhash.
         now split. }
    apply bind_cases in H as [(found & tr8 & Hpoll & H) | (e & Hpoll & ->)];
      pose proof Hpoll as Hpolled;
      apply getTransaction_trace in Hpoll as (k & Hk & Htr8);
      rewrite Htr8 in *; clear Htr8.
    2: { one_submission k hashValue.
         intros s Hs. cbn [Web3Provider.submissions] in Hs.
         injection Hs as <-. cbn [Web3Provider.promises_of]. resolve_hash Hhash.
         split; [reflexivity|]. eexists. split; [exact Hpolled|].
         intros e' He'. now inversion He'. }
    match type of H with
    | _ ?before = _ => assert (Hsame : trace = before)
    end.
    { revert H. unfold Web3.getData. eff_unfold.
      destruct (toWord hashValue); [|intros H; now inversion H].
      destruct (toBinary _); [|intros H; now inversion H].
      destruct (toAddress (Web3.address contract)); intros H; now inversion H. }
    rewrite Hsame. one_submission k hashValue.
    intros s Hs. cbn [Web3Provider.submissions] in Hs.
         injection Hs as <-. cbn [Web3Provider.promises_of]. resolve_hash Hhash.
    split; [reflexivity|]. eexists. split; [exact Hpolled|]. discriminate.
Qed.

(** A poll that does not find the transaction throws the same error
    whatever was requested before. *)
Lemma getTransaction_request_fails poll txHash :
  (forall w, eth_getTransaction poll txHash <> Eff.Returned (Some w)) ->
  exists e,
    (forall tr,
       Web3.getTransaction_request eth_getTransaction poll txHash tr
       = ((tr ++ [Web3.GetTransaction txHash])%list, Eff.Thrown e))
    /\ (eth_getTransaction poll txHash = Eff.Returned None ->
        e = Js.Error "No transaction found")
    /\ (forall rejected,
          eth_getTransaction poll txHash = Eff.Thrown rejected -> e = rejected).
Proof.
  intros Hmissing. unfold Web3.getTransaction_request. eff_unfold.
  destruct (eth_getTransaction poll txHash) as [[v|]|e] eqn:Hpoll.
  - now destruct (Hmissing v).
  - exists (Js.Error "No transaction found"). repeat split; congruence.
  - exists e. repeat split; congruence.
Qed.

(** A failed attempt that is not the last one is followed by the next. *)
Lemma backOff_retry {A} (request : nat -> Web3.M A) remaining start tr tr1 e :
  request start tr = (tr1, Eff.Thrown e) ->
  Web3.backOff (S (S remaining)) start request tr
  = Web3.backOff (S remaining) (S start) request tr1.
Proof.
  intros Hrequest.
  change (Web3.backOff (S (S remaining)) start request tr)
    with (Eff.try_catch (request start)
            (fun e => Web3.backOff (S remaining) (S start) request) tr).
  unfold Eff.try_catch. now rewrite Hrequest.
Qed.

(** When no attempt finds the transaction the loop stops after the last one
    and throws what that one threw. *)
Lemma backOff_exhausts txHash attempts :
  forall start tr,
    (forall j, (j <= attempts)%nat ->
       forall w, eth_getTransaction (start + j) txHash <> Eff.Returned (Some w)) ->
    exists e,
      Web3.backOff (S attempts) start
        (fun poll => Web3.getTransaction_request eth_getTransaction poll txHash)
        tr
      = ((tr ++ repeat (Web3.GetTransaction txHash) (S attempts))%list,
         Eff.Thrown e)
      /\ (eth_getTransaction (start + attempts) txHash = Eff.Returned None ->
          e = Js.Error "No transaction found")
      /\ (forall rejected,
            eth_getTransaction (start + attempts) txHash = Eff.Thrown rejected ->
            e = rejected).
Proof.
  induction attempts as [|attempts IH]; intros start tr Hmissing.
  - cbn [Web3.backOff]. unfold Eff.try_catch.
    destruct (getTransaction_request_fails start txHash) as (e & Hreq & Hnull & Hrej).
    { intros w. specialize (Hmissing 0%nat ltac:(lia) w).
      now rewrite Nat.add_0_r in Hmissing. }
    rewrite Hreq. exists e. rewrite Nat.add_0_r. now repeat split.
  - destruct (getTransaction_request_fails start txHash) as (e0 & Hreq & _).
    { intros w. specialize (Hmissing 0%nat ltac:(lia) w).
      now rewrite Nat.add_0_r in Hmissing. }
    rewrite (backOff_retry _ _ _ _ _ _ (Hreq tr)).
    destruct (IH (S start) (tr ++ [Web3.GetTransaction txHash])%list)
      as (e & Hloop & Hnull & Hrej).
    { intros j Hj w. specialize (Hmissing (S j) ltac:(lia) w).
      now rewrite Nat.add_succ_r in Hmissing. }
    exists e. rewrite Hloop, <- app_assoc.
    rewrite Nat.add_succ_r. now repeat split.
Qed.

(** X8: when none of the ten polls finds the transaction,
    [getTransaction] gives up after exactly ten requests and throws what the
    last poll threw: ["No transaction found"] if the node answered [null]. *)
Theorem getTransaction_gives_up txHash tr :
  (forall poll, (poll < 10)%nat ->
     forall w, eth_getTransaction poll txHash <> Eff.Returned (Some w)) ->
  exists e,
    Web3.getTransaction eth_getTransaction txHash tr
    = ((tr ++ repeat (Web3.GetTransaction txHash) 10)%list, Eff.Thrown e)
    /\ (eth_getTransaction 9 txHash = Eff.Returned None ->
        e = Js.Error "No transaction found")
    /\ (forall rejected,
          eth_getTransaction 9 txHash = Eff.Thrown rejected -> e = rejected).
Proof.
  intros Hmissing. unfold Web3.getTransaction, Web3.numOfAttempts.
  apply (backOff_exhausts txHash 9 0 tr).
  intros j Hj. apply Hmissing. lia.
Qed.

Lemma shape_submissions pre sub k txHash :
  pre = [] \/ pre = [Web3.GetAccounts] ->
  Web3Provider.submissions
    (pre ++ sub ++ repeat (Web3.GetTransaction txHash) k)
  = Web3Provider.submissions sub.
Proof.
  intros Hpre.
  rewrite !submissions_app, submissions_repeat_poll, app_nil_r.
  now destruct Hpre as [-> | ->].
Qed.

Lemma shape_polls pre sub k txHash sendMethod :
  pre = [] \/ pre = [Web3.GetAccounts] ->
  sub = []
  \/ (exists request, sub = [Web3.SendTransaction request])
  \/ (exists sendOptions,
        sub = [Web3.ContractMethodSend (Web3.encodeABI sendMethod) sendOptions]) ->
  Web3Provider.polls (pre ++ sub ++ repeat (Web3.GetTransaction txHash) k)
  = repeat txHash k.
Proof.
  intros Hpre Hsub. rewrite !polls_app, polls_repeat_poll.
  destruct Hpre as [-> | ->];
    destruct Hsub as [-> | [(request & ->) | (sendOptions & ->)]];
    reflexivity.
Qed.

(** X9: whatever its outcome, the node sees the requests of a [send] in
    one order: the request for the accounts, if any, comes first, then at
    most one submission (a raw transaction or the send of the contract
    method), and after it only polls, at most ten and all for one hash.
    Nothing is polled before a submission, and a run that has not submitted
    has not polled.  When [send] returns a transaction it has submitted
    exactly once and polled at least once. *)
Theorem send_submits_once config contract sendMethod options trace o :
  Eff.run (send config contract sendMethod options) = (trace, o) ->
  (exists pre sub k txHash,
     trace = (pre ++ sub ++ repeat (Web3.GetTransaction txHash) k)%list
     /\ (pre = [] \/ pre = [Web3.GetAccounts])
     /\ (sub = []
         \/ (exists request, sub = [Web3.SendTransaction request])
         \/ (exists sendOptions,
               sub = [Web3.ContractMethodSend (Web3.encodeABI sendMethod)
                        sendOptions]))
     /\ (k <= 10)%nat
     /\ (sub = [] -> k = 0%nat)
     /\ (forall tx, o = Eff.Returned tx -> sub <> [] /\ (1 <= k)%nat))
  /\ (List.length (Web3Provider.submissions trace) <= 1)%nat
  /\ (List.length (Web3Provider.polls trace) <= 10)%nat
  /\ (Web3Provider.submissions trace = [] -> Web3Provider.polls trace = [])
  /\ (exists txHash,
        Web3Provider.polls trace
        = repeat txHash (List.length (Web3Provider.polls trace)))
  /\ (forall tx,
        o = Eff.Returned tx ->
        List.length (Web3Provider.submissions trace) = 1%nat
        /\ (1 <= List.length (Web3Provider.polls trace))%nat).
Proof.
  intros Hrun.
  apply send_trace_shape in Hrun
    as (pre & sub & k & txHash & -> & Hpre & Hsub & Hk & Hnone & Hdone & _).
  unfold Web3.numOfAttempts in Hk.
  split.
  { exists pre, sub, k, txHash. split; [reflexivity|].
    repeat (split; [assumption|]). assumption. }
  rewrite (shape_submissions _ _ _ _ Hpre), (shape_polls _ _ _ _ _ Hpre Hsub).
  rewrite repeat_length.
  assert (Hcount : sub = [] /\ Web3Provider.submissions sub = []
                   \/ sub <> [] /\ List.length (Web3Provider.submissions sub) = 1%nat).
  { destruct Hsub as [-> | [(request & ->) | (sendOptions & ->)]];
      [left | right | right]; split; try reflexivity; discriminate. }
  split; [destruct Hcount as [[_ ->] | [_ ->]]; cbn; lia|].
  split; [exact Hk|].
  split.
  { intros Hempty. destruct Hcount as [[Hsub0 _] | [_ Hone]].
    - now rewrite (Hnone Hsub0).
    - rewrite Hempty in Hone. discriminate. }
  split; [now exists txHash|].
  intros tx Htx. destruct (Hdone tx Htx) as [Hsome Hpolled].
  destruct Hcount as [[Hsub0 _] | [_ Hone]]; [contradiction | now split].
Qed.

(** X10: when the hash promise of the one submission is rejected (the user
    declines in the wallet, say), [send] throws that very error and never
    polls the node for the transaction. *)
Theorem send_rejected_hash config contract sendMethod options trace o s e :
  Eff.run (send config contract sendMethod options) = (trace, o) ->
  Web3Provider.submissions trace = [s] ->
  Web3.hash (Web3Provider.promises_of eth_sendTransaction sendMethod s)
  = Eff.Thrown e ->
  o = Eff.Thrown e /\ Web3Provider.polls trace = [].
Proof.
  intros Hrun Hs Hhash.
  apply send_trace_shape in Hrun
    as (pre & sub & k & txHash & -> & Hpre & Hsub & _ & _ & _ & Hsubmitted).
  rewrite (shape_submissions _ _ _ _ Hpre) in Hs.
  rewrite (shape_polls _ _ _ _ _ Hpre Hsub).
  specialize (Hsubmitted s Hs). rewrite Hhash in Hsubmitted.
  destruct Hsubmitted as [-> ->]. now split.
Qed.

(** X11: when the submission's hash resolves but none of the ten polls finds
    the transaction, [send] throws although the transaction has been
    submitted: the trace holds the submission and ten polls for its hash. *)
Theorem send_lost_transaction config contract sendMethod options trace o s
    txHash :
  Eff.run (send config contract sendMethod options) = (trace, o) ->
  Web3Provider.submissions trace = [s] ->
  Web3.hash (Web3Provider.promises_of eth_sendTransaction sendMethod s)
  = Eff.Returned txHash ->
  (forall poll, (poll < 10)%nat ->
     forall w, eth_getTransaction poll txHash <> Eff.Returned (Some w)) ->
  exists e,
    o = Eff.Thrown e
    /\ Web3Provider.polls trace = repeat txHash 10
    /\ (eth_getTransaction 9 txHash = Eff.Returned None ->
        e = Js.Error "No transaction found").
Proof.
  intros Hrun Hs Hhash Hmissing.
  apply send_trace_shape in Hrun
    as (pre & sub & k & polled & Htrace & Hpre & Hsub & _ & _ & _ & Hsubmitted).
  rewrite Htrace, (shape_submissions _ _ _ _ Hpre) in Hs.
  specialize (Hsubmitted s Hs). rewrite Hhash in Hsubmitted.
  destruct Hsubmitted as (-> & outcome & Hpoll & Hfail).
  destruct (backOff_exhausts txHash 9 0 (pre ++ sub)%list) as (e & Hloop & Hnull & _).
  { intros j Hj. apply Hmissing. lia. }
  unfold Web3.getTransaction, Web3.numOfAttempts in Hpoll.
  rewrite Hloop in Hpoll. injection Hpoll as Hsame Houtcome.
  exists e. split; [apply Hfail; now rewrite <- Houtcome|].
  split; [|exact Hnull].
  rewrite <- Hsame, <- app_assoc.
  exact (shape_polls pre sub 10%nat txHash sendMethod Hpre Hsub).
Qed.

(** A transaction the retry loop returns is one the node answered with, in
    one of the allowed polls. *)
Lemma backOff_returned txHash found attempts :
  forall start tr tr',
    Web3.backOff attempts start
      (fun poll => Web3.getTransaction_request eth_getTransaction poll txHash) tr
    = (tr', Eff.Returned found) ->
    exists j,
      (j < attempts)%nat
      /\ eth_getTransaction (start + j) txHash = Eff.Returned (Some found).
Proof.
  induction attempts as [|attempts IH]; intros start tr tr'; cbn [Web3.backOff].
  - unfold Eff.throw. discriminate.
  - unfold Eff.try_catch.
    destruct (Web3.getTransaction_request eth_getTransaction start txHash tr)
      as [tr1 [t|e]] eqn:Hrequest.
    + intros H. inversion H; subst. exists 0%nat. split; [lia|].
      rewrite Nat.add_0_r. revert Hrequest.
      unfold Web3.getTransaction_request. eff_unfold.
      destruct (eth_getTransaction start txHash) as [[v|]|e];
        intros Hrequest; now inversion Hrequest.
    + destruct attempts as [|attempts']; [unfold Eff.throw; discriminate|].
      intros H. apply IH in H as (j & Hj & Hfound). exists (S j).
      split; [lia|]. now rewrite Nat.add_succ_r.
Qed.

(** The submissions of a trace made of the accounts request, one further
    event and polls are those of that one event. *)
Lemma submissions_around pre ev txHash k :
  pre = [] \/ pre = [Web3.GetAccounts] ->
  Web3Provider.submissions
    ((pre ++ [ev]) ++ repeat (Web3.GetTransaction txHash) k)
  = Web3Provider.submissions [ev].
Proof.
  intros Hpre. rewrite <- app_assoc. now apply shape_submissions.
Qed.

(** X12: a transaction that [send] returns, with or without additional
    calldata, belongs to the one submission of the run: its receipt promise
    is that submission's, its hash is the converted hash the submission
    resolved to, and its nonce is the nonce of a transaction the node
    answered with for that hash within the ten polls. *)
Theorem send_returned_transaction config contract sendMethod options trace tx :
  Eff.run (send config contract sendMethod options) = (trace, Eff.Returned tx) ->
  exists s txHash poll found,
    Web3Provider.submissions trace = [s]
    /\ Web3.wt_receipt tx
       = Web3.receipt (Web3Provider.promises_of eth_sendTransaction sendMethod s)
    /\ Web3.hash (Web3Provider.promises_of eth_sendTransaction sendMethod s)
       = Eff.Returned txHash
    /\ toWord txHash = Eff.Returned (Web3.wt_hash tx)
    /\ (poll < 10)%nat
    /\ eth_getTransaction poll txHash = Eff.Returned (Some found)
    /\ Web3.nonce tx = Web3.tx_nonce found
    /\ exists to,
         Web3.wt_to tx = Some to
         /\ toAddress (Web3.address contract) = Eff.Returned to.
Proof.
  intros Hrun. unfold send, Web3.send, Eff.run in Hrun.
  apply bind_returned in Hrun as (account & pre & Hfrom & Hrun).
  apply getFrom_trace in Hfrom. cbn [app] in Hfrom.
  apply bind_returned in Hrun as (from & tr2 & Hstep & Hrun).
  apply lift_returned in Hstep as [_ ->].
  destruct (Web3.truthy_string (Web3.additionalData options)).
  - apply bind_returned in Hrun as (extra & tr3 & Hstep & Hrun).
    apply lift_returned in Hstep as [_ ->].
    apply bind_returned in Hrun as (encoded & tr4 & Hstep & Hrun).
    unfold Web3.getData, Eff.ret in Hstep. injection Hstep as <- <-.
    apply bind_returned in Hrun as (source & tr5 & Hstep & Hrun).
    apply lift_returned in Hstep as [_ ->].
    apply bind_returned in Hrun as ([] & tr6 & Hemit & Hrun).
    apply emit_outcome in Hemit as [-> _].
    apply bind_returned in Hrun as (hashValue & tr7 & Hhash & Hrun).
    apply lift_returned in Hhash as [Hhash ->].
    apply bind_returned in Hrun as (found & tr8 & Hpoll & Hrun).
    pose proof (getTransaction_trace _ _ _ _ Hpoll) as (k & _ & ->).
    apply backOff_returned in Hpoll as (poll & Hpoll & Hfound).
    apply bind_returned in Hrun as (word & tr9 & Hword & Hrun).
    apply lift_returned in Hword as [Hword ->].
    apply bind_returned in Hrun as (binaryData & tr10 & Hstep & Hrun).
    apply lift_returned in Hstep as [_ ->].
    apply bind_returned in Hrun as (to & tr11 & Hto & Hrun).
    apply lift_returned in Hto as [Hto ->].
    unfold Eff.ret in Hrun. injection Hrun as <- <-.
    match type of Hhash with
    | Web3.hash (eth_sendTransaction ?request) = _ =>
        exists (Web3Provider.Raw request), hashValue, poll, found
    end.
    rewrite (submissions_around _ _ _ _ Hfrom).
    unfold Web3.numOfAttempts in Hpoll.
    repeat split; try assumption. now exists to.
  - apply bind_returned in Hrun as ([] & tr6 & Hemit & Hrun).
    apply emit_outcome in Hemit as [-> _].
    apply bind_returned in Hrun as (hashValue & tr7 & Hhash & Hrun).
    apply lift_returned in Hhash as [Hhash ->].
    apply bind_returned in Hrun as (found & tr8 & Hpoll & Hrun).
    pose proof (getTransaction_trace _ _ _ _ Hpoll) as (k & _ & ->).
    apply backOff_returned in Hpoll as (poll & Hpoll & Hfound).
    apply bind_returned in Hrun as (word & tr9 & Hword & Hrun).
    apply lift_returned in Hword as [Hword ->].
    apply bind_returned in Hrun as (encoded & tr4 & Hstep & Hrun).
    unfold Web3.getData, Eff.ret in Hstep. injection Hstep as <- <-.
    apply bind_returned in Hrun as (binaryData & tr10 & Hstep & Hrun).
    apply lift_returned in Hstep as [_ ->].
    apply bind_returned in Hrun as (to & tr11 & Hto & Hrun).
    apply lift_returned in Hto as [Hto ->].
    unfold Eff.ret in Hrun. injection Hrun as <- <-.
    match type of Hhash with
    | Web3.hash (Web3.method_send sendMethod ?sendOptions) = _ =>
        exists (Web3Provider.ViaMethod (Web3.encodeABI sendMethod) sendOptions),
          hashValue, poll, found
    end.
    rewrite (submissions_around _ _ _ _ Hfrom).
    unfold Web3.numOfAttempts in Hpoll.
    repeat split; try assumption. now exists to.
Qed.

(** X13: without additional calldata (none given, or the empty string) a
    [send] that returns has gone through the contract method's own [send]:
    the one submission is the encoded call, sent from the converted sender
    with [config.gas || options.gas]; the returned [data] is the converted
    encoded call, and no contract ABI is attached to the transaction. *)
Theorem send_without_additionalData config contract sendMethod options trace tx :
  Web3.truthy_string (Web3.additionalData options) = false ->
  Eff.run (send config contract sendMethod options) = (trace, Eff.Returned tx) ->
  exists sendOptions,
    Web3Provider.submissions trace
    = [Web3Provider.ViaMethod (Web3.encodeABI sendMethod) sendOptions]
    /\ Web3.sm_from sendOptions = Web3.wt_from tx
    /\ Web3.sm_gas sendOptions
       = Web3.or_number (Web3.gas config) (Web3.opt_gas options)
    /\ Web3.sm_value sendOptions = Web3.opt_value options
    /\ toBinary (Web3.encodeABI sendMethod) = Eff.Returned (Web3.data tx)
    /\ Web3.wt_contractAbi tx = None.
Proof.
  intros Hplain Hrun. unfold send, Web3.send, Eff.run in Hrun.
  apply bind_returned in Hrun as (account & pre & Hfrom & Hrun).
  apply getFrom_trace in Hfrom. cbn [app] in Hfrom.
  apply bind_returned in Hrun as (from & tr2 & Hstep & Hrun).
  apply lift_returned in Hstep as [_ ->].
  rewrite Hplain in Hrun.
  apply bind_returned in Hrun as ([] & tr6 & Hemit & Hrun).
  apply emit_outcome in Hemit as [-> _].
  apply bind_returned in Hrun as (hashValue & tr7 & Hhash & Hrun).
  apply lift_returned in Hhash as [Hhash ->].
  apply bind_returned in Hrun as (found & tr8 & Hpoll & Hrun).
  apply getTransaction_trace in Hpoll as (k & _ & ->).
  apply bind_returned in Hrun as (word & tr9 & Hword & Hrun).
  apply lift_returned in Hword as [Hword ->].
  apply bind_returned in Hrun as (encoded & tr4 & Hstep & Hrun).
  unfold Web3.getData, Eff.ret in Hstep. injection Hstep as <- <-.
  apply bind_returned in Hrun as (binaryData & tr10 & Hbinary & Hrun).
  apply lift_returned in Hbinary as [Hbinary ->].
  apply bind_returned in Hrun as (to & tr11 & Hto & Hrun).
  apply lift_returned in Hto as [Hto ->].
  unfold Eff.ret in Hrun. injection Hrun as <- <-.
  eexists. rewrite (submissions_around _ _ _ _ Hfrom).
  cbn [Web3Provider.submissions]. split; [reflexivity|].
  repeat split. exact Hbinary.
Qed.

(** X19: with additional calldata a [send] that returns has bypassed the
    contract method and sent a raw transaction: from the converted sender,
    to the contract's address as it stands, with [config.gas ||
    options.gas], the caller's value and the printed gas price; the
    contract's ABI is attached to the transaction returned. *)
Theorem send_with_additionalData_request config contract sendMethod options
    trace tx :
  Web3.truthy_string (Web3.additionalData options) = true ->
  Eff.run (send config contract sendMethod options) = (trace, Eff.Returned tx) ->
  exists request,
    Web3Provider.submissions trace = [Web3Provider.Raw request]
    /\ Web3.tx_from request = Web3.wt_from tx
    /\ Web3.tx_to request = Web3.address contract
    /\ Web3.tx_gas request
       = Web3.or_number (Web3.gas config) (Web3.opt_gas options)
    /\ Web3.tx_value request = Web3.opt_value options
    /\ Web3.tx_gasPrice request
       = option_map number_toString (Web3.opt_gasPrice options)
    /\ toBinary (Web3.tx_data request) = Eff.Returned (Web3.data tx)
    /\ Web3.wt_contractAbi tx = Some (Web3.jsonInterface contract).
Proof.
  intros Hextra Hrun. unfold send, Web3.send, Eff.run in Hrun.
  apply bind_returned in Hrun as (account & pre & Hfrom & Hrun).
  apply getFrom_trace in Hfrom. cbn [app] in Hfrom.
  apply bind_returned in Hrun as (from & tr2 & Hstep & Hrun).
  apply lift_returned in Hstep as [_ ->].
  rewrite Hextra in Hrun.
  apply bind_returned in Hrun as (extra & tr3 & Hstep & Hrun).
  apply lift_returned in Hstep as [_ ->].
  apply bind_returned in Hrun as (encoded & tr4 & Hstep & Hrun).
  unfold Web3.getData, Eff.ret in Hstep. injection Hstep as <- <-.
  apply bind_returned in Hrun as (source & tr5 & Hstep & Hrun).
  apply lift_returned in Hstep as [_ ->].
  apply bind_returned in Hrun as ([] & tr6 & Hemit & Hrun).
  apply emit_outcome in Hemit as [-> _].
  apply bind_returned in Hrun as (hashValue & tr7 & Hhash & Hrun).
  apply lift_returned in Hhash as [_ ->].
  apply bind_returned in Hrun as (found & tr8 & Hpoll & Hrun).
  apply getTransaction_trace in Hpoll as (k & _ & ->).
  apply bind_returned in Hrun as (word & tr9 & Hword & Hrun).
  apply lift_returned in Hword as [_ ->].
  apply bind_returned in Hrun as (binaryData & tr10 & Hbinary & Hrun).
  apply lift_returned in Hbinary as [Hbinary ->].
  apply bind_returned in Hrun as (to & tr11 & Hto & Hrun).
  apply lift_returned in Hto as [_ ->].
  unfold Eff.ret in Hrun. injection Hrun as <- <-.
  eexists. rewrite (submissions_around _ _ _ _ Hfrom).
  cbn [Web3Provider.submissions]. split; [reflexivity|].
  repeat split. exact Hbinary.
Qed.

(** What a returned transaction records of the sender, the contract and the
    ABI. *)
Lemma send_returned_fields config contract sendMethod options trace tx :
  Eff.run (send config contract sendMethod options) = (trace, Eff.Returned tx) ->
  exists account pre to,
    Web3.getFrom eth_getAccounts (Web3.from config) [] = (pre, Eff.Returned account)
    /\ toAddress account = Eff.Returned (Web3.wt_from tx)
    /\ Web3.wt_to tx = Some to
    /\ toAddress (Web3.address contract) = Eff.Returned to
    /\ Web3.wt_contractAbi tx
       = if Web3.truthy_string (Web3.additionalData options)
         then Some (Web3.jsonInterface contract)
         else None.
Proof.
  intros Hrun. unfold send, Web3.send, Eff.run in Hrun.
  apply bind_returned in Hrun as (account & pre & Hfrom & Hrun).
  apply bind_returned in Hrun as (from & tr2 & Haddress & Hrun).
  apply lift_returned in Haddress as [Haddress _].
  exists account, pre.
  destruct (Web3.truthy_string (Web3.additionalData options)).
  - apply bind_returned in Hrun as (extra & tr3 & _ & Hrun).
    apply bind_returned in Hrun as (encoded & tr4 & _ & Hrun).
    apply bind_returned in Hrun as (source & tr5 & _ & Hrun).
    apply bind_returned in Hrun as ([] & tr6 & _ & Hrun).
    apply bind_returned in Hrun as (hashValue & tr7 & _ & Hrun).
    apply bind_returned in Hrun as (found & tr8 & _ & Hrun).
    apply bind_returned in Hrun as (word & tr9 & _ & Hrun).
    apply bind_returned in Hrun as (binaryData & tr10 & _ & Hrun).
    apply bind_returned in Hrun as (to & tr11 & Hto & Hrun).
    apply lift_returned in Hto as [Hto _].
    unfold Eff.ret in Hrun. injection Hrun as _ <-. exists to.
    now repeat split.
  - apply bind_returned in Hrun as ([] & tr6 & _ & Hrun).
    apply bind_returned in Hrun as (hashValue & tr7 & _ & Hrun).
    apply bind_returned in Hrun as (found & tr8 & _ & Hrun).
    apply bind_returned in Hrun as (word & tr9 & _ & Hrun).
    apply bind_returned in Hrun as (encoded & tr4 & _ & Hrun).
    apply bind_returned in Hrun as (binaryData & tr10 & _ & Hrun).
    apply bind_returned in Hrun as (to & tr11 & Hto & Hrun).
    apply lift_returned in Hto as [Hto _].
    unfold Eff.ret in Hrun. injection Hrun as _ <-. exists to.
    now repeat split.
Qed.

(** Without a configured sender and without a first account, looking up the
    sender asks for the accounts and throws. *)
Lemma getFrom_not_connected from accounts tr :
  Web3.truthy_string from = false ->
  eth_getAccounts = Eff.Returned accounts ->
  hd "" accounts = "" ->
  Web3.getFrom eth_getAccounts from tr
  = ((tr ++ [Web3.GetAccounts])%list,
     Eff.Thrown (Js.Error "Wallet is not connected")).
Proof.
  intros Hfrom Haccounts Hfirst.
  assert (Hnone : Web3.firstAccount eth_getAccounts tr
                  = ((tr ++ [Web3.GetAccounts])%list,
                     Eff.Thrown (Js.Error "Wallet is not connected"))).
  { unfold Web3.firstAccount. eff_unfold. rewrite Haccounts.
    destruct accounts as [|first rest]; [reflexivity|].
    cbn in Hfirst. subst first. reflexivity. }
  unfold Web3.getFrom. destruct from as [f|]; [|exact Hnone].
  cbn in Hfrom. now rewrite Hfrom.
Qed.

End Web3TraceProperties.

(** ** Web3 provider: call information, signing and events *)

Section Web3ProviderProperties.

Variable eth_getAccounts : Eff.outcome Js.error (list string).
Variable eth_sendTransaction : Web3.TransactionConfig -> Web3.Promises.
Variable eth_getTransaction :
  nat -> string -> Eff.outcome Js.error (option Web3.Transaction).
Variable toAddress : string -> Eff.outcome Js.error string.
Variable toBinary : string -> Eff.outcome Js.error string.
Variable toWord : string -> Eff.outcome Js.error string.
Variable number_toString : float -> string.
Variable personal_sign : string -> string -> Eff.outcome Js.error string.
Variable getTransactionReceiptEvents :
  Eff.outcome Js.error Js.value -> string -> Js.value ->
  Eff.outcome Js.error (list Js.value).
Variable getContractMethodReceiptEvents :
  Eff.outcome Js.error Js.value -> Eff.outcome Js.error (option (list Js.value)).

Let send :=
  Web3.send eth_getAccounts eth_sendTransaction eth_getTransaction
    toAddress toBinary toWord number_toString.
Let getCallInfo := Web3Provider.getCallInfo eth_getAccounts.
Let personalSign := Web3Provider.personalSign eth_getAccounts personal_sign.
Let getEvents :=
  Web3Provider.getEvents getTransactionReceiptEvents
    getContractMethodReceiptEvents.

(** X14: with no [from] configured and no first account in the wallet,
    [send], [getCallInfo] and [personalSign] each ask for the accounts once
    and throw ["Wallet is not connected"]: nothing is submitted and nothing
    is signed. *)
Theorem wallet_not_connected config contract sendMethod options methodName
    args message accounts :
  Web3.truthy_string (Web3.from config) = false ->
  eth_getAccounts = Eff.Returned accounts ->
  hd "" accounts = "" ->
  let notConnected := Js.Error "Wallet is not connected" in
  Eff.run (send config contract sendMethod options)
  = ([Web3.GetAccounts], Eff.Thrown notConnected)
  /\ Eff.run (getCallInfo config contract methodName args)
     = ([Web3.GetAccounts], Eff.Thrown notConnected)
  /\ Eff.run (personalSign config message)
     = ([Web3Provider.Node Web3.GetAccounts], Eff.Thrown notConnected).
Proof.
  intros Hfrom Haccounts Hfirst notConnected.
  pose proof (getFrom_not_connected eth_getAccounts _ _ [] Hfrom Haccounts Hfirst)
    as Hlookup.
  repeat split.
  - unfold send, Web3.send, Eff.run, Eff.bind. now rewrite Hlookup.
  - unfold getCallInfo, Web3Provider.getCallInfo, Eff.run, Eff.bind.
    now rewrite Hlookup.
  - unfold personalSign, Web3Provider.personalSign, Web3Provider.getFrom,
      Web3Provider.node, Eff.run, Eff.bind.
    now rewrite Hlookup.
Qed.

(** X15: [getCallInfo] and [send] agree on the sender: the [from] that
    [getCallInfo] reports, converted to an address, is the [from] of the
    transaction [send] returns; the information also names the method, the
    arguments, the contract's address and the provider ["web3"]. *)
Theorem getCallInfo_agrees_with_send config contract sendMethod options
    methodName args asked info trace tx :
  Eff.run (getCallInfo config contract methodName args)
  = (asked, Eff.Returned info) ->
  Eff.run (send config contract sendMethod options) = (trace, Eff.Returned tx) ->
  toAddress (Web3Provider.from info) = Eff.Returned (Web3.wt_from tx)
  /\ Web3Provider.method info = methodName
  /\ Web3Provider.args info = args
  /\ Web3Provider.contract info = Web3.address contract
  /\ Web3Provider.provider info = "web3"
  /\ Web3Provider.submissions asked = [].
Proof.
  intros Hinfo Hsend.
  apply send_returned_fields in Hsend
    as (account & pre & to & Hfrom & Haddress & _).
  unfold getCallInfo, Web3Provider.getCallInfo, Eff.run in Hinfo.
  apply bind_returned in Hinfo as (reported & tr1 & Hreported & Hinfo).
  rewrite Hfrom in Hreported. injection Hreported as <- <-.
  unfold Eff.ret in Hinfo. injection Hinfo as <- <-.
  apply getFrom_trace in Hfrom. cbn [app] in Hfrom.
  repeat split; try assumption.
  now destruct Hfrom as [-> | ->].
Qed.

(** X16: a message that [personalSign] signs is signed, once, by the account
    that [getCallInfo] reports as the sender, and the signature returned is
    the wallet's. *)
Theorem personalSign_signer config contract methodName args message asked info
    trace signature :
  Eff.run (getCallInfo config contract methodName args)
  = (asked, Eff.Returned info) ->
  Eff.run (personalSign config message) = (trace, Eff.Returned signature) ->
  Web3Provider.signings trace = [(message, Web3Provider.from info)]
  /\ personal_sign message (Web3Provider.from info) = Eff.Returned signature.
Proof.
  intros Hinfo Hsign.
  unfold getCallInfo, Web3Provider.getCallInfo, Eff.run in Hinfo.
  apply bind_returned in Hinfo as (reported & tr1 & Hreported & Hinfo).
  unfold Eff.ret in Hinfo. injection Hinfo as <- <-.
  unfold personalSign, Web3Provider.personalSign, Eff.run in Hsign.
  apply bind_returned in Hsign as (signer & tr2 & Hsigner & Hsign).
  unfold Web3Provider.getFrom, Web3Provider.node in Hsigner.
  rewrite Hreported in Hsigner. injection Hsigner as <- <-.
  apply bind_returned in Hsign as ([] & tr3 & Hemit & Hsign).
  apply emit_outcome in Hemit as [-> _].
  apply lift_returned in Hsign as [Hsigned ->].
  split; [|exact Hsigned]. cbn [Web3Provider.from].
  apply getFrom_trace in Hreported. cbn [app] in Hreported.
  now destruct Hreported as [-> | ->].
Qed.

(** X17: the events of a transaction returned by [send] are parsed with the
    contract's ABI exactly when it was sent with additional calldata (given
    a non-empty converted contract address and an ABI that is not falsy);
    otherwise they are those of the method receipt, or none when that
    parser settles with [undefined]. *)
Theorem getEvents_after_send config contract sendMethod options trace tx :
  Eff.run (send config contract sendMethod options) = (trace, Eff.Returned tx) ->
  (Web3.truthy_string (Web3.additionalData options) = true ->
   Js.truthy (Web3.jsonInterface contract) = true ->
   forall to,
     toAddress (Web3.address contract) = Eff.Returned to ->
     to <> "" ->
     getEvents tx
     = getTransactionReceiptEvents (Web3.wt_receipt tx) to
         (Web3.jsonInterface contract))
  /\ (Web3.truthy_string (Web3.additionalData options) = false ->
      getEvents tx
      = match getContractMethodReceiptEvents (Web3.wt_receipt tx) with
        | Eff.Returned (Some events) => Eff.Returned events
        | Eff.Returned None => Eff.Returned []
        | Eff.Thrown e => Eff.Thrown e
        end).
Proof.
  intros Hsend.
  apply send_returned_fields in Hsend
    as (account & pre & to & _ & _ & Hto & Haddress & Habi).
  unfold getEvents, Web3Provider.getEvents. rewrite Hto, Habi. split.
  - intros -> Htruthy to' Hto' Hnonempty.
    rewrite Haddress in Hto'. injection Hto' as <-.
    rewrite Htruthy, andb_true_r.
    destruct (String.eqb_spec to "") as [Hempty|_]; [contradiction|].
    reflexivity.
  - intros ->. reflexivity.
Qed.

End Web3ProviderProperties.

(** ** The take data of the Seaport tests *)

(** X18: for every amount, [getOpenseaWethTakeData] splits it in two WETH
    items that add up to the amount exactly: 97.5% with no recipient of its
    own (the seller's), and 2.5%, 250 basis points, for the marketplace's
    fee recipient; each item ends at the amount it starts with. *)
Theorem getOpenseaWethTakeData_split (amount : Q) :
  exists sellerItem feeItem,
    Seaport.getOpenseaWethTakeData amount = [sellerItem; feeItem]
    /\ (Seaport.ti_amount sellerItem + Seaport.ti_amount feeItem == amount)%Q
    /\ (Seaport.ti_amount feeItem == amount * (250 # 10000))%Q
    /\ Seaport.ti_endAmount sellerItem = Seaport.ti_amount sellerItem
    /\ Seaport.ti_endAmount feeItem = Seaport.ti_amount feeItem
    /\ Seaport.ti_recipient sellerItem = None
    /\ Seaport.ti_recipient feeItem = Some Seaport.openseaFeeRecipient
    /\ Seaport.ti_token sellerItem = Seaport.weth
    /\ Seaport.ti_token feeItem = Seaport.weth.
Proof.
  do 2 eexists. split; [reflexivity|]. cbn.
  split; [|split; [|repeat split]].
  - destruct amount as [n d]. unfold Qeq, Qplus, Qmult. cbn.
    rewrite !Pos2Z.inj_mul. ring.
  - destruct amount as [n d]. unfold Qeq, Qmult. cbn.
    rewrite !Pos2Z.inj_mul. ring.
Qed.

(** ** The further properties at the sample data *)

Lemma getBaseFee_fetches_once_witness :
  exists rest,
    [Fee.AxiosGet "https://fee.example/config.json";
     Fee.ConsoleError Samples.networkDown;
     Fee.HandleAxiosErrorResponse Samples.networkDown Fee.ETHEREUM_EXTERNAL_ERR]
    = Fee.AxiosGet (Fee.feeConfigUrl Samples.feeConfig) :: rest
    /\ Forall (fun ev => match ev with
                         | Fee.AxiosGet _ => False
                         | _ => True
                         end) rest.
Proof.
  exact (getBaseFee_fetches_once Samples.unreachable Samples.logOnly
           "RARIBLE_V2" Samples.noRuntimeNumber Samples.feeConfig "testnet" None
           [Fee.AxiosGet "https://fee.example/config.json";
            Fee.ConsoleError Samples.networkDown;
            Fee.HandleAxiosErrorResponse Samples.networkDown
              Fee.ETHEREUM_EXTERNAL_ERR]
           (Eff.Thrown Samples.networkDown) eq_refl).
Defined.

Lemma getBaseFee_returned_from_table_witness :
  exists table fields configured,
    Samples.serving (Fee.feeConfigUrl Samples.feeConfig)
    = Eff.Returned (Js.Object table)
    /\ Js.own_property table "testnet" = Some (Js.Object fields)
    /\ Js.own_property fields "RARIBLE_V2" = Some configured
    /\ 250%float
       = Js.to_number Samples.noRuntimeNumber
           (Js.or configured (Js.Number PrimFloat.zero))
    /\ [Fee.AxiosGet "https://fee.example/config.json"]
       = [Fee.AxiosGet (Fee.feeConfigUrl Samples.feeConfig)].
Proof.
  exact (getBaseFee_returned_from_table Samples.serving Samples.logOnly
           "RARIBLE_V2" Samples.noRuntimeNumber Samples.feeConfig "testnet" None
           [Fee.AxiosGet "https://fee.example/config.json"] 250%float eq_refl).
Defined.

Lemma getBaseFee_falsy_entry_not_found_witness :
  let notFound := Js.Error "Fee config was not found for mainnet" in
  Eff.run (Fee.getBaseFee EdgeSamples.servingOdd Samples.logOnly "RARIBLE_V2"
             Samples.noRuntimeNumber Samples.feeConfig "mainnet" None)
  = ([Fee.AxiosGet "https://fee.example/config.json";
      Fee.ConsoleError notFound;
      Fee.HandleAxiosErrorResponse notFound Fee.ETHEREUM_EXTERNAL_ERR],
     Eff.Thrown notFound).
Proof.
  exact (getBaseFee_falsy_entry_not_found EdgeSamples.servingOdd Samples.logOnly
           "RARIBLE_V2" Samples.noRuntimeNumber Samples.feeConfig "mainnet" None
           (Js.Object EdgeSamples.oddTable) Js.Null
           eq_refl eq_refl eq_refl eq_refl).
Defined.

Lemma getBaseFee_primitive_entry_type_error_witness :
  exists e,
    Eff.run (Fee.getBaseFee EdgeSamples.servingOdd Samples.logOnly "RARIBLE_V2"
               Samples.noRuntimeNumber Samples.feeConfig "testnet"
               (Some "RARIBLE_V2"))
    = ([Fee.AxiosGet (Fee.feeConfigUrl Samples.feeConfig)], Eff.Thrown e)
    /\ Js.errName e = "TypeError".
Proof.
  exact (getBaseFee_primitive_entry_type_error EdgeSamples.servingOdd
           Samples.logOnly "RARIBLE_V2" Samples.noRuntimeNumber
           Samples.feeConfig "testnet" "RARIBLE_V2" EdgeSamples.oddTable
           (Js.Number 250%float) eq_refl eq_refl eq_refl I).
Defined.

Lemma getBaseFee_nullish_body_witness :
  exists e,
    Js.errName e = "TypeError"
    /\ (Samples.logOnly e Fee.ETHEREUM_EXTERNAL_ERR = Eff.Returned tt ->
        Eff.run (Fee.getBaseFee EdgeSamples.servingNull Samples.logOnly
                   "RARIBLE_V2" Samples.noRuntimeNumber Samples.feeConfig
                   "testnet" None)
        = ([Fee.AxiosGet (Fee.feeConfigUrl Samples.feeConfig);
            Fee.ConsoleError e;
            Fee.HandleAxiosErrorResponse e Fee.ETHEREUM_EXTERNAL_ERR],
           Eff.Thrown e)).
Proof.
  exact (getBaseFee_nullish_body EdgeSamples.servingNull Samples.logOnly
           "RARIBLE_V2" Samples.noRuntimeNumber Samples.feeConfig "testnet" None
           Js.Null eq_refl (or_introl eq_refl)).
Defined.

Lemma getBaseFee_number_never_nan_witness :
  exists fee,
    Eff.run (Fee.getBaseFee EdgeSamples.servingOdd Samples.logOnly "RARIBLE_V2"
               Samples.noRuntimeNumber Samples.feeConfig "polygon"
               (Some "RARIBLE_V2"))
    = ([Fee.AxiosGet (Fee.feeConfigUrl Samples.feeConfig)], Eff.Returned fee)
    /\ PrimFloat.is_nan fee = false
    /\ (PrimFloat.is_nan PrimFloat.nan = true -> fee = PrimFloat.zero).
Proof.
  exact (getBaseFee_number_never_nan EdgeSamples.servingOdd Samples.logOnly
           "RARIBLE_V2" Samples.noRuntimeNumber Samples.feeConfig "polygon"
           "RARIBLE_V2" EdgeSamples.oddTable
           [("RARIBLE_V2", Js.Number PrimFloat.nan)] PrimFloat.nan
           eq_refl eq_refl eq_refl).
Defined.

Lemma getTransaction_finds_witness :
  Web3.getTransaction Samples.pollTransaction "0xfeed" []
  = (repeat (Web3.GetTransaction "0xfeed") 3,
     Eff.Returned {| Web3.tx_nonce := 7 |}).
Proof.
  apply (getTransaction_finds Samples.pollTransaction "0xfeed"
           {| Web3.tx_nonce := 7 |} 2 []).
  - unfold Web3.numOfAttempts. lia.
  - intros j Hj w. destruct j as [|[|j]]; [discriminate | discriminate | lia].
  - reflexivity.
Defined.

Lemma getTransaction_gives_up_witness :
  exists e,
    Web3.getTransaction EdgeSamples.neverFound "0xfeed" []
    = (repeat (Web3.GetTransaction "0xfeed") 10, Eff.Thrown e)
    /\ (EdgeSamples.neverFound 9 "0xfeed" = Eff.Returned None ->
        e = Js.Error "No transaction found")
    /\ (forall rejected,
          EdgeSamples.neverFound 9 "0xfeed" = Eff.Thrown rejected ->
          e = rejected).
Proof.
  apply (getTransaction_gives_up EdgeSamples.neverFound "0xfeed" []).
  intros poll Hpoll w. discriminate.
Defined.

Lemma send_submits_once_witness :
  (exists pre sub k txHash,
     fst EdgeSamples.lostRun
     = (pre ++ sub ++ repeat (Web3.GetTransaction txHash) k)%list
     /\ (pre = [] \/ pre = [Web3.GetAccounts])
     /\ (sub = []
         \/ (exists request, sub = [Web3.SendTransaction request])
         \/ (exists sendOptions,
               sub = [Web3.ContractMethodSend
                        (Web3.encodeABI Samples.matchOrders) sendOptions]))
     /\ (k <= 10)%nat
     /\ (sub = [] -> k = 0%nat)
     /\ (forall tx,
           snd EdgeSamples.lostRun = Eff.Returned tx ->
           sub <> [] /\ (1 <= k)%nat))
  /\ (List.length (Web3Provider.submissions (fst EdgeSamples.lostRun)) <= 1)%nat
  /\ (List.length (Web3Provider.polls (fst EdgeSamples.lostRun)) <= 10)%nat
  /\ (Web3Provider.submissions (fst EdgeSamples.lostRun) = [] ->
      Web3Provider.polls (fst EdgeSamples.lostRun) = [])
  /\ (exists txHash,
        Web3Provider.polls (fst EdgeSamples.lostRun)
        = repeat txHash
            (List.length (Web3Provider.polls (fst EdgeSamples.lostRun))))
  /\ (forall tx,
        snd EdgeSamples.lostRun = Eff.Returned tx ->
        List.length (Web3Provider.submissions (fst EdgeSamples.lostRun)) = 1%nat
        /\ (1 <= List.length (Web3Provider.polls (fst EdgeSamples.lostRun)))%nat).
Proof.
  exact (send_submits_once Samples.accounts Samples.submitted
           EdgeSamples.neverFound Samples.unchecked Samples.ensure0x
           Samples.unchecked Samples.printNumber Samples.walletConfig
           Samples.exchangeContract Samples.matchOrders Samples.sendOptions
           (fst EdgeSamples.lostRun) (snd EdgeSamples.lostRun) eq_refl).
Defined.

Lemma send_rejected_hash_witness :
  snd EdgeSamples.rejectedRun = Eff.Thrown EdgeSamples.userRejected
  /\ Web3Provider.polls (fst EdgeSamples.rejectedRun) = [].
Proof.
  exact (send_rejected_hash Samples.accounts Samples.submitted
           Samples.pollTransaction Samples.unchecked Samples.ensure0x
           Samples.unchecked Samples.printNumber EdgeSamples.fromConfigured
           Samples.exchangeContract EdgeSamples.rejectedMethod
           EdgeSamples.plainOptions
           (fst EdgeSamples.rejectedRun) (snd EdgeSamples.rejectedRun)
           (Web3Provider.ViaMethod "0xe99a3f80aa55" EdgeSamples.methodOptions)
           EdgeSamples.userRejected eq_refl eq_refl eq_refl).
Defined.

Lemma send_lost_transaction_witness :
  exists e,
    snd EdgeSamples.lostRun = Eff.Thrown e
    /\ Web3Provider.polls (fst EdgeSamples.lostRun) = repeat "0xfeed" 10
    /\ (EdgeSamples.neverFound 9 "0xfeed" = Eff.Returned None ->
        e = Js.Error "No transaction found").
Proof.
  apply (send_lost_transaction Samples.accounts Samples.submitted
           EdgeSamples.neverFound Samples.unchecked Samples.ensure0x
           Samples.unchecked Samples.printNumber Samples.walletConfig
           Samples.exchangeContract Samples.matchOrders Samples.sendOptions
           (fst EdgeSamples.lostRun) (snd EdgeSamples.lostRun)
           (Web3Provider.Raw EdgeSamples.rawRequest) "0xfeed").
  - reflexivity.
  - reflexivity.
  - reflexivity.
  - intros poll Hpoll w. discriminate.
Defined.

Lemma send_returned_transaction_witness :
  exists s txHash poll found,
    Web3Provider.submissions (fst EdgeSamples.additionalRun) = [s]
    /\ Web3.wt_receipt Samples.sentTransaction
       = Web3.receipt (Web3Provider.promises_of Samples.submitted
                         Samples.matchOrders s)
    /\ Web3.hash (Web3Provider.promises_of Samples.submitted
                    Samples.matchOrders s)
       = Eff.Returned txHash
    /\ Samples.unchecked txHash
       = Eff.Returned (Web3.wt_hash Samples.sentTransaction)
    /\ (poll < 10)%nat
    /\ Samples.pollTransaction poll txHash = Eff.Returned (Some found)
    /\ Web3.nonce Samples.sentTransaction = Web3.tx_nonce found
    /\ exists to,
         Web3.wt_to Samples.sentTransaction = Some to
         /\ Samples.unchecked (Web3.address Samples.exchangeContract)
            = Eff.Returned to.
Proof.
  exact (send_returned_transaction Samples.accounts Samples.submitted
           Samples.pollTransaction Samples.unchecked Samples.ensure0x
           Samples.unchecked Samples.printNumber Samples.walletConfig
           Samples.exchangeContract Samples.matchOrders Samples.sendOptions
           (fst EdgeSamples.additionalRun) Samples.sentTransaction eq_refl).
Defined.

Lemma send_without_additionalData_witness :
  exists sendOptions,
    Web3Provider.submissions (fst EdgeSamples.plainRun)
    = [Web3Provider.ViaMethod (Web3.encodeABI Samples.matchOrders) sendOptions]
    /\ Web3.sm_from sendOptions = Web3.wt_from EdgeSamples.plainTransaction
    /\ Web3.sm_gas sendOptions
       = Web3.or_number (Web3.gas EdgeSamples.fromConfigured)
           (Web3.opt_gas EdgeSamples.plainOptions)
    /\ Web3.sm_value sendOptions = Web3.opt_value EdgeSamples.plainOptions
    /\ Samples.ensure0x (Web3.encodeABI Samples.matchOrders)
       = Eff.Returned (Web3.data EdgeSamples.plainTransaction)
    /\ Web3.wt_contractAbi EdgeSamples.plainTransaction = None.
Proof.
  exact (send_without_additionalData Samples.accounts Samples.submitted
           Samples.pollTransaction Samples.unchecked Samples.ensure0x
           Samples.unchecked Samples.printNumber EdgeSamples.fromConfigured
           Samples.exchangeContract Samples.matchOrders EdgeSamples.plainOptions
           (fst EdgeSamples.plainRun) EdgeSamples.plainTransaction
           eq_refl eq_refl).
Defined.

Lemma wallet_not_connected_witness :
  let notConnected := Js.Error "Wallet is not connected" in
  Eff.run (Web3.send EdgeSamples.noAccounts Samples.submitted
             Samples.pollTransaction Samples.unchecked Samples.ensure0x
             Samples.unchecked Samples.printNumber Samples.walletConfig
             Samples.exchangeContract Samples.matchOrders Samples.sendOptions)
  = ([Web3.GetAccounts], Eff.Thrown notConnected)
  /\ Eff.run (Web3Provider.getCallInfo EdgeSamples.noAccounts
                Samples.walletConfig Samples.exchangeContract "matchOrders" [])
     = ([Web3.GetAccounts], Eff.Thrown notConnected)
  /\ Eff.run (Web3Provider.personalSign EdgeSamples.noAccounts
                EdgeSamples.signWith Samples.walletConfig "hello")
     = ([Web3Provider.Node Web3.GetAccounts], Eff.Thrown notConnected).
Proof.
  exact (wallet_not_connected EdgeSamples.noAccounts Samples.submitted
           Samples.pollTransaction Samples.unchecked Samples.ensure0x
           Samples.unchecked Samples.printNumber EdgeSamples.signWith
           Samples.walletConfig Samples.exchangeContract Samples.matchOrders
           Samples.sendOptions "matchOrders" [] "hello" []
           eq_refl eq_refl eq_refl).
Defined.

Lemma getCallInfo_agrees_with_send_witness :
  Samples.unchecked (Web3Provider.from EdgeSamples.callInfo)
  = Eff.Returned (Web3.wt_from Samples.sentTransaction)
  /\ Web3Provider.method EdgeSamples.callInfo = "matchOrders"
  /\ Web3Provider.args EdgeSamples.callInfo = []
  /\ Web3Provider.contract EdgeSamples.callInfo
     = Web3.address Samples.exchangeContract
  /\ Web3Provider.provider EdgeSamples.callInfo = "web3"
  /\ Web3Provider.submissions [Web3.GetAccounts] = [].
Proof.
  exact (getCallInfo_agrees_with_send Samples.accounts Samples.submitted
           Samples.pollTransaction Samples.unchecked Samples.ensure0x
           Samples.unchecked Samples.printNumber Samples.walletConfig
           Samples.exchangeContract Samples.matchOrders Samples.sendOptions
           "matchOrders" [] [Web3.GetAccounts] EdgeSamples.callInfo
           (fst EdgeSamples.additionalRun) Samples.sentTransaction
           eq_refl eq_refl).
Defined.

Lemma personalSign_signer_witness :
  Web3Provider.signings
    [Web3Provider.Node Web3.GetAccounts;
     Web3Provider.PersonalSign "hello" Samples.buyer]
  = [("hello", Web3Provider.from EdgeSamples.callInfo)]
  /\ EdgeSamples.signWith "hello" (Web3Provider.from EdgeSamples.callInfo)
     = Eff.Returned "0xsigned:hello".
Proof.
  exact (personalSign_signer Samples.accounts EdgeSamples.signWith
           Samples.walletConfig Samples.exchangeContract "matchOrders" []
           "hello" [Web3.GetAccounts] EdgeSamples.callInfo
           [Web3Provider.Node Web3.GetAccounts;
            Web3Provider.PersonalSign "hello" Samples.buyer]
           "0xsigned:hello" eq_refl eq_refl).
Defined.

Lemma getEvents_after_send_witness :
  Web3Provider.getEvents EdgeSamples.abiEvents EdgeSamples.methodEvents
    Samples.sentTransaction
  = Eff.Returned [Js.String "Match"].
Proof.
  exact (proj1 (getEvents_after_send Samples.accounts Samples.submitted
                  Samples.pollTransaction Samples.unchecked Samples.ensure0x
                  Samples.unchecked Samples.printNumber EdgeSamples.abiEvents
                  EdgeSamples.methodEvents Samples.walletConfig
                  Samples.exchangeContract Samples.matchOrders
                  Samples.sendOptions (fst EdgeSamples.additionalRun)
                  Samples.sentTransaction eq_refl)
           eq_refl eq_refl Samples.exchange eq_refl
           (fun H => eq_ind Samples.exchange
                       (fun s => match s with
                                 | EmptyString => False
                                 | String _ _ => True
                                 end) I "" H)).
Defined.

Lemma send_with_additionalData_request_witness :
  exists request,
    Web3Provider.submissions (fst EdgeSamples.additionalRun)
    = [Web3Provider.Raw request]
    /\ Web3.tx_from request = Web3.wt_from Samples.sentTransaction
    /\ Web3.tx_to request = Web3.address Samples.exchangeContract
    /\ Web3.tx_gas request
       = Web3.or_number (Web3.gas Samples.walletConfig)
           (Web3.opt_gas Samples.sendOptions)
    /\ Web3.tx_value request = Web3.opt_value Samples.sendOptions
    /\ Web3.tx_gasPrice request
       = option_map Samples.printNumber (Web3.opt_gasPrice Samples.sendOptions)
    /\ Samples.ensure0x (Web3.tx_data request)
       = Eff.Returned (Web3.data Samples.sentTransaction)
    /\ Web3.wt_contractAbi Samples.sentTransaction
       = Some (Web3.jsonInterface Samples.exchangeContract).
Proof.
  exact (send_with_additionalData_request Samples.accounts Samples.submitted
           Samples.pollTransaction Samples.unchecked Samples.ensure0x
           Samples.unchecked Samples.printNumber Samples.walletConfig
           Samples.exchangeContract Samples.matchOrders Samples.sendOptions
           (fst EdgeSamples.additionalRun) Samples.sentTransaction
           eq_refl eq_refl).
Defined.
